(** * File gateway handler (src/app.py): a shallow embedding and its properties

    The repository is one AWS Lambda handler, [lambda_handler], with two
    operations, [handle_upload_preparation] (POST /files) and
    [handle_download] (GET /files/{objectKey}).  The embedding follows the
    Python text:

    - Python values that reach the handler are JSON values ([value]); a [str]
      is the list of its Unicode code points ([pystr]); a [dict] is an
      association list in insertion order with unique keys ([pydict]);
    - exceptions are values of [exn]; a computation of the handler either
      returns or raises ([outcome]), and records the calls it makes to the
      S3 client in a log (the monad [M]);
    - the collaborators that live outside the repository are parameters of
      the handler: the bucket name, [json.loads] on a [str], the two
      methods of the boto3 client, [print] on the standard output and the
      limits that the interpreter puts on [json.dumps].  The text that
      [json.dumps] writes and [urllib.parse.unquote] are deterministic and
      are modelled in full; a reference decoder ([Json.decode]), the limits
      of CPython 3.11 ([dumps_fault_within]) and a UTF-8 output stream
      ([utf8_print]) instantiate the parameters in the examples;
    - [lambda_handler_logged] is the whole of the function [lambda_handler]
      of the source, with its log lines; [lambda_handler] is what it comes
      to on an event that is an object when the two log lines of the
      function are written (the last section proves that they agree
      there). *)

From Stdlib Require Import ZArith List String Ascii Bool Lia FunInd.
From Stdlib Require Import Floats.SpecFloat.
Import ListNotations.

Local Open Scope Z_scope.

(** ** Python strings *)

(** A [str] is a sequence of code points. *)
Definition pystr := list Z.

(** [py "abc"] is the [str] literal 'abc' (ASCII text only). *)
Definition py (s : string) : pystr :=
  map (fun a => Z.of_N (N_of_ascii a)) (list_ascii_of_string s).

Fixpoint str_eqb (a b : pystr) : bool :=
  match a, b with
  | [], [] => true
  | x :: a', y :: b' => (x =? y) && str_eqb a' b'
  | _, _ => false
  end.

(** [s.startswith(p)] *)
Fixpoint startswith (s p : pystr) : bool :=
  match p, s with
  | [], _ => true
  | y :: p', x :: s' => (x =? y) && startswith s' p'
  | _ :: _, [] => false
  end.

(** Decimal text of an integer: [str(n)] / [int.__repr__]. *)
Fixpoint uint_codes (d : Decimal.uint) : pystr :=
  match d with
  | Decimal.Nil => []
  | Decimal.D0 d => 48 :: uint_codes d
  | Decimal.D1 d => 49 :: uint_codes d
  | Decimal.D2 d => 50 :: uint_codes d
  | Decimal.D3 d => 51 :: uint_codes d
  | Decimal.D4 d => 52 :: uint_codes d
  | Decimal.D5 d => 53 :: uint_codes d
  | Decimal.D6 d => 54 :: uint_codes d
  | Decimal.D7 d => 55 :: uint_codes d
  | Decimal.D8 d => 56 :: uint_codes d
  | Decimal.D9 d => 57 :: uint_codes d
  end.

Definition str_of_Z (z : Z) : pystr :=
  match z with
  | Z0 => [48]
  | Zpos p => uint_codes (Pos.to_uint p)
  | Zneg p => 45 :: uint_codes (Pos.to_uint p)
  end.

(** ** Python floats

    A [float] is an IEEE 754 binary64 number, [spec_float] with precision 53
    and [emax] 1024.  [float_of_decimal] is [float] applied to a decimal
    literal (the nearest float, ties to even) and [float_repr] is
    [float.__repr__] (the shortest digits that read back as the float). *)

Definition prec64 : Z := 53.
Definition emax64 : Z := 1024.

Definition ndigits (n : Z) : Z := Z.of_nat (List.length (str_of_Z n)).

(** The binary64 number nearest (ties to even) to [(-1)^s * d * 10^q].  A
    magnitude of at least [10^310] is beyond every finite float and one
    below [10^-330] is below half the least positive float, so the two
    ends are answered without computing the power. *)
Definition float_of_decimal (s : bool) (d q : Z) : spec_float :=
  match d with
  | Zpos _ =>
      if 310 <? q + ndigits d then S754_infinity s
      else if q + ndigits d <? -330 then S754_zero s
      else if 0 <=? q then
        binary_round prec64 emax64 s (Z.to_pos (d * 10 ^ q)) 0
      else
        let den := 10 ^ (- q) in
        let sh := Z.max 0 (65 + Z.log2 den - Z.log2 d) in
        let (qt, r) := Z.div_eucl (d * 2 ^ sh) den in
        let loc := if r =? 0 then loc_Exact else loc_Inexact (2 * r ?= den) in
        binary_round_aux prec64 emax64 s qt (- sh) loc
  | _ => S754_zero s
  end.

(** The decimal point position [k] of [num/den > 0]:
    [10^(k-1) <= num/den < 10^k]. *)
Definition decpt_of (num den : Z) : Z :=
  if den <=? num then ndigits (num / den)
  else
    let l := ndigits (den / num) in
    if den <=? num * 10 ^ (l - 1) then 2 - l else 1 - l.

(** The candidate with [n] significant digits for [num/den] (decimal point
    position [k]), if one of the two neighbours with [n] digits reads back
    as [m * 2^e]; of two that do, the nearer one. *)
Definition digits_at (m : positive) (e num den k n : Z) : option Z :=
  let '(nn, dd) := if 0 <=? n - k then (num * 10 ^ (n - k), den)
                   else (num, den * 10 ^ (k - n)) in
  let lo := nn / dd in
  let r := nn mod dd in
  let hi := lo + 1 in
  let back c :=
    match float_of_decimal false c (k - n) with
    | S754_finite _ m' e' => Pos.eqb m m' && (e =? e')
    | _ => false
    end in
  if r =? 0 then Some lo
  else
    match back lo, back hi with
    | true, true =>
        match 2 * r ?= dd with
        | Lt => Some lo
        | Gt => Some hi
        | Eq => Some (if Z.even lo then lo else hi)
        end
    | true, false => Some lo
    | false, true => Some hi
    | false, false => None
    end.

Fixpoint shortest_from (fuel : nat) (m : positive) (e num den k n : Z) : Z * Z :=
  match fuel with
  | O => (num * 10 ^ (17 - k) / den, 17)
  | S fuel' =>
      match digits_at m e num den k n with
      | Some c => (c, n)
      | None => shortest_from fuel' m e num den k (n + 1)
      end
  end.

Fixpoint drop_zeros (r : pystr) : pystr :=
  match r with
  | 48 :: r' => drop_zeros r'
  | _ => r
  end.

(** Shortest decimal digits that read back as [m * 2^e], and the position of
    the decimal point (the value is [0.d1d2...dn * 10^decpt]). *)
Definition shortest_digits (m : positive) (e : Z) : pystr * Z :=
  let num := if 0 <=? e then Zpos m * 2 ^ e else Zpos m in
  let den := if 0 <=? e then 1 else 2 ^ (- e) in
  let k := decpt_of num den in
  let '(c, n) := shortest_from 17 m e num den k 1 in
  let ds := str_of_Z c in
  (rev (drop_zeros (rev ds)), k + (Z.of_nat (List.length ds) - n)).

Definition zeros (n : Z) : pystr := repeat 48 (Z.to_nat n).

(** [repr] of a positive finite float from its digits: exponent notation
    when [decpt <= -4] or [decpt > 16], positional notation otherwise. *)
Definition format_repr (ds : pystr) (decpt : Z) : pystr :=
  let n := Z.of_nat (List.length ds) in
  if (decpt <=? -4) || (16 <? decpt) then
    let ex := decpt - 1 in
    let mant := match ds with
                | [] => []
                | d0 :: [] => [d0]
                | d0 :: rest => d0 :: 46 :: rest
                end in
    let exs := str_of_Z (Z.abs ex) in
    mant ++ [101] ++ [if ex <? 0 then 45 else 43]
         ++ (if Z.abs ex <? 10 then 48 :: exs else exs)
  else if decpt <=? 0 then
    py "0." ++ zeros (- decpt) ++ ds
  else if n <=? decpt then
    ds ++ zeros (decpt - n) ++ py ".0"
  else
    firstn (Z.to_nat decpt) ds ++ [46] ++ skipn (Z.to_nat decpt) ds.

Definition float_repr (f : spec_float) : pystr :=
  match f with
  | S754_nan => py "nan"
  | S754_infinity s => if s then py "-inf" else py "inf"
  | S754_zero s => if s then py "-0.0" else py "0.0"
  | S754_finite s m e =>
      let '(ds, k) := shortest_digits m e in
      (if s then [45] else []) ++ format_repr ds k
  end.

(** ** Python values

    The values that reach the handler are the ones [json.loads] builds:
    [None], [bool], [int], [float], [str], [list] and [dict] with [str]
    keys. *)

#[warnings="-register-all"]
Inductive value : Type :=
| VNone
| VBool (b : bool)
| VInt (n : Z)
| VFloat (f : spec_float)
| VStr (s : pystr)
| VList (l : list value)
| VDict (d : list (pystr * value)).

Definition pydict := list (pystr * value).

(** [d.get(k)], as an option. *)
Fixpoint dict_get (d : pydict) (k : pystr) : option value :=
  match d with
  | [] => None
  | (k', v) :: d' => if str_eqb k' k then Some v else dict_get d' k
  end.

(** [d.get(k, default)] *)
Definition dict_get_default (d : pydict) (k : pystr) (default : value) : value :=
  match dict_get d k with
  | Some v => v
  | None => default
  end.

(** [d[k] = v]: a present key keeps its position, a new key goes last. *)
Fixpoint dict_set (d : pydict) (k : pystr) (v : value) : pydict :=
  match d with
  | [] => [(k, v)]
  | (k', v') :: d' =>
      if str_eqb k' k then (k', v) :: d' else (k', v') :: dict_set d' k v
  end.

(** Truth value of an object, as [not x] and [if x] test it. *)
Definition truthy (v : value) : bool :=
  match v with
  | VNone => false
  | VBool b => b
  | VInt n => negb (n =? 0)
  | VFloat (S754_zero _) => false
  | VFloat _ => true
  | VStr s => match s with [] => false | _ => true end
  | VList l => match l with [] => false | _ => true end
  | VDict d => match d with [] => false | _ => true end
  end.

(** [type(v).__name__] *)
Definition type_name (v : value) : pystr :=
  match v with
  | VNone => py "NoneType"
  | VBool _ => py "bool"
  | VInt _ => py "int"
  | VFloat _ => py "float"
  | VStr _ => py "str"
  | VList _ => py "list"
  | VDict _ => py "dict"
  end.

(** [v == s] for a [str] literal [s]. *)
Definition eq_str (v : value) (s : pystr) : bool :=
  match v with
  | VStr t => str_eqb t s
  | _ => false
  end.

(** ** json.dumps

    With the default options: [ensure_ascii=True], separators [', '] and
    [': '], [allow_nan=True]. *)

Definition hexdigit (n : Z) : Z := if n <? 10 then 48 + n else 87 + n.

(** ['\\u{0:04x}'.format(n)] *)
Definition escape_u (n : Z) : pystr :=
  [92; 117; hexdigit (n / 4096 mod 16); hexdigit (n / 256 mod 16);
   hexdigit (n / 16 mod 16); hexdigit (n mod 16)].

Definition escape_char (c : Z) : pystr :=
  if c =? 92 then py "\\"
  else if c =? 34 then [92; 34]
  else if c =? 8 then py "\b"
  else if c =? 12 then py "\f"
  else if c =? 10 then py "\n"
  else if c =? 13 then py "\r"
  else if c =? 9 then py "\t"
  else if (32 <=? c) && (c <=? 126) then [c]
  else if c <? 65536 then escape_u c
  else
    let n := c - 65536 in
    escape_u (Z.lor 55296 (Z.land (Z.shiftr n 10) 1023))
      ++ escape_u (Z.lor 56320 (Z.land n 1023)).

(** [encode_basestring_ascii] *)
Definition encode_str (s : pystr) : pystr :=
  [34] ++ flat_map escape_char s ++ [34].

Definition floatstr (f : spec_float) : pystr :=
  match f with
  | S754_nan => py "NaN"
  | S754_infinity false => py "Infinity"
  | S754_infinity true => py "-Infinity"
  | _ => float_repr f
  end.

Fixpoint json_dumps (v : value) : pystr :=
  match v with
  | VNone => py "null"
  | VBool true => py "true"
  | VBool false => py "false"
  | VInt n => str_of_Z n
  | VFloat f => floatstr f
  | VStr s => encode_str s
  | VList l =>
      [91] ++
      (fix items (l : list value) : pystr :=
         match l with
         | [] => []
         | [x] => json_dumps x
         | x :: l' => json_dumps x ++ py ", " ++ items l'
         end) l
      ++ [93]
  | VDict d =>
      [123] ++
      (fix members (d : list (pystr * value)) : pystr :=
         match d with
         | [] => []
         | [(k, x)] => encode_str k ++ py ": " ++ json_dumps x
         | (k, x) :: d' =>
             encode_str k ++ py ": " ++ json_dumps x ++ py ", " ++ members d'
         end) d
      ++ [125]
  end.

(** ** urllib.parse.unquote *)

Definition hexval (c : Z) : option Z :=
  if (48 <=? c) && (c <=? 57) then Some (c - 48)
  else if (65 <=? c) && (c <=? 70) then Some (c - 55)
  else if (97 <=? c) && (c <=? 102) then Some (c - 87)
  else None.

(** [unquote_to_bytes] on ASCII text: [%xx] with two hex digits is one byte,
    any other [%] stays. *)
Fixpoint unquote_to_bytes (s : list Z) : list Z :=
  match s with
  | [] => []
  | c :: rest =>
      if c =? 37 then
        match rest with
        | h1 :: h2 :: rest' =>
            match hexval h1, hexval h2 with
            | Some a, Some b => (16 * a + b) :: unquote_to_bytes rest'
            | _, _ => 37 :: unquote_to_bytes rest
            end
        | _ => 37 :: unquote_to_bytes rest
        end
      else c :: unquote_to_bytes rest
  end.

Definition is_cont (b : Z) : bool := (128 <=? b) && (b <=? 191).

Definition replacement : Z := 65533.

(** [bytes.decode('utf-8', 'replace')]: every maximal ill-formed part is one
    U+FFFD. *)
Fixpoint utf8_decode (bs : list Z) : pystr :=
  match bs with
  | [] => []
  | b :: r1 =>
      if b <? 128 then b :: utf8_decode r1
      else if b <? 194 then replacement :: utf8_decode r1
      else if b <? 224 then
        match r1 with
        | [] => [replacement]
        | b2 :: r2 =>
            if is_cont b2
            then ((b - 192) * 64 + (b2 - 128)) :: utf8_decode r2
            else replacement :: utf8_decode r1
        end
      else if b <? 240 then
        match r1 with
        | [] => [replacement]
        | b2 :: r2 =>
            if negb (is_cont b2) || ((b =? 224) && (b2 <? 160))
               || ((b =? 237) && (160 <=? b2))
            then replacement :: utf8_decode r1
            else
              match r2 with
              | [] => [replacement]
              | b3 :: r3 =>
                  if is_cont b3
                  then ((b - 224) * 4096 + (b2 - 128) * 64 + (b3 - 128))
                         :: utf8_decode r3
                  else replacement :: utf8_decode r2
              end
        end
      else if b <? 245 then
        match r1 with
        | [] => [replacement]
        | b2 :: r2 =>
            if negb (is_cont b2) || ((b =? 240) && (b2 <? 144))
               || ((b =? 244) && (144 <=? b2))
            then replacement :: utf8_decode r1
            else
              match r2 with
              | [] => [replacement]
              | b3 :: r3 =>
                  if negb (is_cont b3) then replacement :: utf8_decode r2
                  else
                    match r3 with
                    | [] => [replacement]
                    | b4 :: r4 =>
                        if is_cont b4
                        then ((b - 240) * 262144 + (b2 - 128) * 4096
                              + (b3 - 128) * 64 + (b4 - 128))
                               :: utf8_decode r4
                        else replacement :: utf8_decode r3
                    end
              end
        end
      else replacement :: utf8_decode r1
  end.

(** The parts of [unquote]: each maximal run of ASCII characters is
    percent-decoded and read as UTF-8, the other characters are kept.
    [run] is the current ASCII run, reversed. *)
Fixpoint unquote_parts (s : pystr) (run : pystr) : pystr :=
  match s with
  | [] => utf8_decode (unquote_to_bytes (rev run))
  | c :: s' =>
      if (0 <=? c) && (c <=? 127) then unquote_parts s' (c :: run)
      else utf8_decode (unquote_to_bytes (rev run)) ++ c :: unquote_parts s' []
  end.

Definition contains (c : Z) (s : pystr) : bool := existsb (Z.eqb c) s.

Definition unquote (s : pystr) : pystr :=
  if negb (contains 37 s) then s else unquote_parts s [].

(** ** Exceptions and the handler's monad *)

(** The exceptions that the handler can meet; each carries [str(e)].  A
    [ClientError] also carries [e.response['Error']['Code']].  [Fault] stands
    for every other subclass of [Exception]. *)
Inductive exn : Type :=
| JSONDecodeError (msg : pystr)
| ClientError (code : pystr) (msg : pystr)
| AttributeError (msg : pystr)
| TypeError (msg : pystr)
| Fault (msg : pystr).

(** [str(e)] *)
Definition str_exn (e : exn) : pystr :=
  match e with
  | JSONDecodeError msg => msg
  | ClientError _ msg => msg
  | AttributeError msg => msg
  | TypeError msg => msg
  | Fault msg => msg
  end.

Inductive outcome (A : Type) : Type :=
| Return (a : A)
| Raise (e : exn).

Arguments Return {A} a.
Arguments Raise {A} e.

(** The calls made on [s3_client], with their keyword arguments. *)
Inductive s3_call : Type :=
| HeadObject (Bucket Key : value)
| GeneratePresignedUrl (ClientMethod : pystr) (Params : pydict) (ExpiresIn : Z).

(** A computation returns or raises, and extends the log of S3 calls. *)
Definition M (A : Type) : Type := list s3_call -> outcome A * list s3_call.

Definition ret {A} (a : A) : M A := fun log => (Return a, log).

Definition raise {A} (e : exn) : M A := fun log => (Raise e, log).

Definition bind {A B} (m : M A) (k : A -> M B) : M B :=
  fun log =>
    match m log with
    | (Return a, log') => k a log'
    | (Raise e, log') => (Raise e, log')
    end.

(** A computation that makes no call. *)
Definition lift {A} (o : outcome A) : M A := fun log => (o, log).

(** [try: x = m / except ...: h / (rest) k x]: [handler e] is the body of the
    [except] clause that matches [e], if one does. *)
Definition try_except {A B} (m : M A) (handler : exn -> option (M B))
    (k : A -> M B) : M B :=
  fun log =>
    match m log with
    | (Return a, log') => k a log'
    | (Raise e, log') =>
        match handler e with
        | Some h => h log'
        | None => (Raise e, log')
        end
    end.

Declare Scope py_scope.
Delimit Scope py_scope with py.
Notation "x <- m ;; k" := (bind m (fun x => k))
  (at level 61, m at next level, right associativity) : py_scope.

(** [v.get(k, default)] on an arbitrary object: only a [dict] has [get]. *)
Definition py_get (v : value) (k : pystr) (default : value) : outcome value :=
  match v with
  | VDict d => Return (dict_get_default d k default)
  | _ => Raise (AttributeError
                  (py "'" ++ type_name v ++ py "' object has no attribute 'get'"))
  end.

(** [v.startswith(p)] on an arbitrary object: only a [str] has it. *)
Definition py_startswith (v : value) (p : pystr) : outcome bool :=
  match v with
  | VStr s => Return (startswith s p)
  | _ => Raise (AttributeError
                  (py "'" ++ type_name v
                     ++ py "' object has no attribute 'startswith'"))
  end.

(** [unquote(v)] on an arbitrary object (CPython 3.11): a number or [None] is
    not iterable, a [list] or [dict] fails on [split] or in the [re] module. *)
Definition py_unquote (v : value) : outcome pystr :=
  match v with
  | VStr s => Return (unquote s)
  | VList l =>
      if existsb (fun x => eq_str x [37]) l
      then Raise (TypeError
                    (py "expected string or bytes-like object, got 'list'"))
      else Raise (AttributeError (py "'list' object has no attribute 'split'"))
  | VDict d =>
      if existsb (fun kv => str_eqb (fst kv) [37]) d
      then Raise (TypeError
                    (py "expected string or bytes-like object, got 'dict'"))
      else Raise (AttributeError (py "'dict' object has no attribute 'split'"))
  | _ => Raise (TypeError
                  (py "argument of type '" ++ type_name v
                     ++ py "' is not iterable"))
  end.

(** ** The response *)

Record Response : Type := mkResponse {
  statusCode : Z;
  headers : list (pystr * pystr);
  body : pystr
}.

Fixpoint header (h : list (pystr * pystr)) (name : pystr) : option pystr :=
  match h with
  | [] => None
  | (n, v) :: h' => if str_eqb n name then Some v else header h' name
  end.

Definition json_headers : list (pystr * pystr) :=
  [(py "Content-Type", py "application/json")].

(** [{'statusCode': status, 'headers': {'Content-Type': 'application/json'},
     'body': json.dumps({'error': msg})}] *)
Definition error_response (status : Z) (msg : pystr) : Response :=
  mkResponse status json_headers (json_dumps (VDict [(py "error", VStr msg)])).

(** ** The collaborators

    What the module takes from outside the repository: the bucket name read
    from the environment at import ([os.environ.get] gives a [str] or
    [None]), [json.loads] applied to a [str], and the two methods that the
    handler calls on the boto3 client.  Each of them returns or raises.

    The log lines go through two more: [dumps_fault v] is the exception
    that [json.dumps(v)] raises when [v] is beyond a limit of the
    interpreter (the recursion depth, the digits of an [int]), [None] when
    it writes its text; [py_print text] is [print(text)], which returns
    [None] or raises when the output stream refuses the text.  The values
    that the handler serialises into its bodies are strings and numbers of
    its own, the URL of the store, and what [json.loads] has read, within
    the same limits; the bodies are written by [json_dumps] as it is. *)
Record Env : Type := mkEnv {
  BUCKET_NAME : value;
  json_decode : pystr -> outcome value;
  head_object : value -> value -> outcome value;
  generate_presigned_url : pystr -> pydict -> Z -> outcome pystr;
  dumps_fault : value -> option exn;
  py_print : pystr -> outcome unit
}.

Section Handler.

Variable env : Env.

Local Open Scope py_scope.

(** [json.loads(v)]: a [TypeError] unless [v] is a [str] (a JSON value is
    never [bytes]). *)
Definition json_loads (v : value) : M value :=
  match v with
  | VStr s => lift (json_decode env s)
  | _ => raise (TypeError
                  (py "the JSON object must be str, bytes or bytearray, not "
                     ++ type_name v))
  end.

(** [json.dumps(v)] as the interpreter runs it: the text of [json_dumps],
    unless [v] is beyond a limit. *)
Definition py_json_dumps (v : value) : outcome pystr :=
  match dumps_fault env v with
  | Some e => Raise e
  | None => Return (json_dumps v)
  end.

(** [s3_client.head_object(Bucket=bucket, Key=key)] *)
Definition s3_head_object (bucket key : value) : M value :=
  fun log => (head_object env bucket key, log ++ [HeadObject bucket key]).

(** [s3_client.generate_presigned_url(method, Params=params,
    ExpiresIn=expires)] *)
Definition s3_generate_presigned_url (method : pystr) (params : pydict)
    (expires : Z) : M pystr :=
  fun log => (generate_presigned_url env method params expires,
              log ++ [GeneratePresignedUrl method params expires]).

(** POST /files (lines 40-94). *)
Definition handle_upload_preparation (event : pydict) : M Response :=
  try_except
    (json_loads (dict_get_default event (py "body") (VStr (py "{}"))))
    (fun e =>
       match e with
       | JSONDecodeError _ =>
           Some (ret (error_response 400 (py "Invalid JSON in request body")))
       | _ => None
       end)
    (fun body =>
       filename <- lift (py_get body (py "filename") VNone) ;;
       if negb (truthy filename) then
         ret (error_response 400 (py "filename is required"))
       else
         content_type <-
           lift (py_get body (py "contentType")
                   (VStr (py "application/octet-stream"))) ;;
         let object_key := filename in
         try_except
           (s3_generate_presigned_url (py "put_object")
              [(py "Bucket", BUCKET_NAME env);
               (py "Key", object_key);
               (py "ContentType", content_type)]
              900)
           (fun e =>
              match e with
              | ClientError _ _ =>
                  Some (_ <- lift (py_print env
                                     (py "Error generating pre-signed URL: "
                                        ++ str_exn e)) ;;
                        ret (error_response 500
                               (py "Failed to generate upload URL")))
              | _ => None
              end)
           (fun upload_url =>
              ret (mkResponse 200 json_headers
                     (json_dumps
                        (VDict [(py "objectKey", object_key);
                                (py "uploadUrl", VStr upload_url);
                                (py "method", VStr (py "PUT"));
                                (py "contentType", content_type);
                                (py "expiresIn", VInt 900)]))))).

(** GET /files/{objectKey} (lines 96-156). *)
Definition handle_download (event : pydict) : M Response :=
  let path_parameters :=
    dict_get_default event (py "pathParameters") (VDict []) in
  object_key <- lift (py_get path_parameters (py "objectKey") VNone) ;;
  if negb (truthy object_key) then
    ret (error_response 400 (py "objectKey is required"))
  else
    object_key <- lift (py_unquote object_key) ;;
    try_except
      (s3_head_object (BUCKET_NAME env) (VStr object_key))
      (fun e =>
         match e with
         | ClientError code _ =>
             if str_eqb code (py "404")
             then Some (ret (error_response 404 (py "File not found")))
             else Some (raise e)
         | _ => None
         end)
      (fun _ =>
         try_except
           (s3_generate_presigned_url (py "get_object")
              [(py "Bucket", BUCKET_NAME env);
               (py "Key", VStr object_key)]
              3600)
           (fun e =>
              match e with
              | ClientError _ _ =>
                  Some (_ <- lift (py_print env
                                     (py "Error generating pre-signed URL: "
                                        ++ str_exn e)) ;;
                        ret (error_response 500
                               (py "Failed to generate download URL")))
              | _ => None
              end)
           (fun download_url =>
              ret (mkResponse 307
                     [(py "Location", download_url);
                      (py "Content-Type", py "application/json")]
                     (json_dumps
                        (VDict [(py "message",
                                 VStr (py "Redirecting to download URL"));
                                (py "expiresIn", VInt 3600)]))))).

(** The body of the [try] statement of [lambda_handler] (lines 22-31), on
    the method and the path read before it. *)
Definition dispatch (http_method path : value) (event : pydict) : M Response :=
  if eq_str http_method (py "POST") && eq_str path (py "/files") then
    handle_upload_preparation event
  else
    is_download <-
      (if eq_str http_method (py "GET")
       then lift (py_startswith path (py "/files/"))
       else ret false) ;;
    if is_download then handle_download event
    else ret (error_response 404 (py "Not found")).

(** Lines 18-31 on an event that is a [dict]: the two reads of lines 18-19,
    which cannot raise on a [dict], and the body of the [try]. *)
Definition route (event : pydict) : M Response :=
  let http_method := dict_get_default event (py "httpMethod") VNone in
  let path := dict_get_default event (py "path") (VStr []) in
  dispatch http_method path event.

(** The function [lambda_handler] of the source (lines 11-38).  Line 16
    serialises and prints the event, and lines 18-19 read the method and
    the path with [event.get], all before the [try]: an exception there
    leaves the handler.  The [except Exception] clause prints the text of
    the exception (line 33) before it builds the 500; an exception of that
    [print] leaves the handler too. *)
Definition lambda_handler_logged (event : value) : M Response :=
  text <- lift (py_json_dumps event) ;;
  _ <- lift (py_print env (py "Event: " ++ text)) ;;
  match event with
  | VDict d =>
      let http_method := dict_get_default d (py "httpMethod") VNone in
      let path := dict_get_default d (py "path") (VStr []) in
      try_except (dispatch http_method path d)
        (fun e =>
           Some (_ <- lift (py_print env (py "Error: " ++ str_exn e)) ;;
                 ret (error_response 500 (str_exn e))))
        ret
  | _ =>
      raise (AttributeError
               (py "'" ++ type_name event ++ py "' object has no attribute 'get'"))
  end.

(** What [lambda_handler_logged] comes to on an event that is a [dict]
    when line 16 and the [print] of line 33 return: lines 18-38 without
    the [print]. *)
Definition lambda_handler (event : pydict) : M Response :=
  try_except (route event)
    (fun e => Some (ret (error_response 500 (str_exn e))))
    ret.

End Handler.

(** ** A reference JSON decoder

    [Json.decode] follows the scanner of CPython's [json] module
    ([json.loads] with the default options, [strict=True]) on a [str]: the
    grammar, the [NaN] and [Infinity] constants, surrogate pairs in [\u]
    escapes, [int] for a number without fraction and exponent and [float]
    otherwise, the last of two equal keys.  A [JSONDecodeError] carries the
    message without the position, which the handler never reads.

    The scanner has the two limits of the interpreter (CPython 3.11): it
    enters an object or an array only while recursion depth is left, and
    raises [RecursionError] otherwise; an [int] of more than 4300 digits
    raises [ValueError].  Neither is a [JSONDecodeError].  The depth left
    when [json.loads] is called depends on the frames of the caller;
    [Json.decode] gives it the default recursion limit of 1000. *)
Module Json.

Inductive pres (A : Type) : Type :=
| POk (a : A) (rest : pystr)
| PErr (msg : pystr)
| PLimit (msg : pystr)
| PFuel.

Arguments POk {A} a rest.
Arguments PErr {A} msg.
Arguments PLimit {A} msg.
Arguments PFuel {A}.

Definition is_ws (c : Z) : bool :=
  (c =? 32) || (c =? 9) || (c =? 10) || (c =? 13).

Fixpoint skip_ws (s : pystr) : pystr :=
  match s with
  | c :: s' => if is_ws c then skip_ws s' else s
  | [] => []
  end.

Definition is_digit (c : Z) : bool := (48 <=? c) && (c <=? 57).

Definition hex4 (h1 h2 h3 h4 : Z) : option Z :=
  match hexval h1, hexval h2, hexval h3, hexval h4 with
  | Some a, Some b, Some c, Some d => Some (((a * 16 + b) * 16 + c) * 16 + d)
  | _, _, _, _ => None
  end.

(** The character of a one-letter escape. *)
Definition unescape (c : Z) : option Z :=
  if c =? 34 then Some 34
  else if c =? 92 then Some 92
  else if c =? 47 then Some 47
  else if c =? 98 then Some 8
  else if c =? 102 then Some 12
  else if c =? 110 then Some 10
  else if c =? 114 then Some 13
  else if c =? 116 then Some 9
  else None.

(** The low surrogate of a [\uXXXX] escape at the head of [s], and what
    follows it. *)
Definition low_surrogate (s : pystr) : option (Z * pystr) :=
  match s with
  | b :: u :: g1 :: g2 :: g3 :: g4 :: r =>
      if (b =? 92) && (u =? 117) then
        match hex4 g1 g2 g3 g4 with
        | Some c2 =>
            if (56320 <=? c2) && (c2 <=? 57343) then Some (c2, r) else None
        | None => None
        end
      else None
  | _ => None
  end.

(** [scanstring], after the opening quote; [acc] is the text read so far,
    reversed.  A [\u] escape needs its four digits and one more character
    after them; a high surrogate takes the low surrogate that follows it
    under the same condition. *)
Fixpoint scanstring (s : pystr) (acc : pystr) : pres pystr :=
  match s with
  | [] => PErr (py "Unterminated string starting at")
  | c :: r =>
      if c =? 34 then POk (rev acc) r
      else if c =? 92 then
        match r with
        | [] => PErr (py "Unterminated string starting at")
        | e :: r1 =>
            if e =? 117 then
              match r1 with
              | h1 :: h2 :: h3 :: h4 :: r2 =>
                  match r2, hex4 h1 h2 h3 h4 with
                  | [], _ | _, None => PErr (py "Invalid \uXXXX escape")
                  | _ :: _, Some uni =>
                      if (55296 <=? uni) && (uni <=? 56319) then
                        match r2 with
                        | b :: u :: g1 :: g2 :: g3 :: g4 :: r3 =>
                            match r3, low_surrogate r2 with
                            | _ :: _, Some (c2, _) =>
                                scanstring r3
                                  ((65536 + (uni - 55296) * 1024
                                    + (c2 - 56320)) :: acc)
                            | _, _ => scanstring r2 (uni :: acc)
                            end
                        | _ => scanstring r2 (uni :: acc)
                        end
                      else scanstring r2 (uni :: acc)
                  end
              | _ => PErr (py "Invalid \uXXXX escape")
              end
            else
              match unescape e with
              | Some x => scanstring r1 (x :: acc)
              | None => PErr (py "Invalid \escape")
              end
        end
      else if c <=? 31 then PErr (py "Invalid control character at")
      else scanstring r (c :: acc)
  end.

Fixpoint span_digits (s : pystr) : pystr * pystr :=
  match s with
  | c :: s' =>
      if is_digit c then let (ds, r) := span_digits s' in (c :: ds, r)
      else ([], s)
  | [] => ([], [])
  end.

(** [int(ds)] for a string of digits. *)
Definition digits_value (ds : pystr) : Z :=
  fold_left (fun a c => 10 * a + (c - 48)) ds 0.

(** The digits of the integer part: ['0'] alone, or a digit from 1 to 9
    and the digits after it. *)
Definition int_part (s : pystr) : option (pystr * pystr) :=
  match s with
  | c :: s' =>
      if c =? 48 then Some ([48], s')
      else if is_digit c then let (ds, r) := span_digits s' in Some (c :: ds, r)
      else None
  | [] => None
  end.

(** [\.[0-9]+], when it is there. *)
Definition frac_part (s : pystr) : option (pystr * pystr) :=
  match s with
  | dot :: d :: s' =>
      if (dot =? 46) && is_digit d
      then let (ds, r) := span_digits s' in Some (d :: ds, r)
      else None
  | _ => None
  end.

(** [[eE][-+]?[0-9]+], when it is there: the exponent. *)
Definition exp_part (s : pystr) : option (Z * pystr) :=
  match s with
  | e :: s' =>
      if (e =? 101) || (e =? 69) then
        let '(neg, s'') :=
          match s' with
          | sg :: t =>
              if sg =? 45 then (true, t)
              else if sg =? 43 then (false, t)
              else (false, s')
          | [] => (false, s')
          end in
        match span_digits s'' with
        | ([], _) => None
        | (ds, r) =>
            Some (if neg then - digits_value ds else digits_value ds, r)
        end
      else None
  | [] => None
  end.

(** A number at the head of [s]. *)
Definition match_number (s : pystr) : option (value * pystr) :=
  let '(neg, s1) :=
    match s with
    | c :: t => if c =? 45 then (true, t) else (false, s)
    | [] => (false, s)
    end in
  match int_part s1 with
  | None => None
  | Some (ip, s2) =>
      let '(fp, s3) :=
        match frac_part s2 with
        | Some (ds, r) => (Some ds, r)
        | None => (None, s2)
        end in
      let '(ep, s4) :=
        match exp_part s3 with
        | Some (x, r) => (Some x, r)
        | None => (None, s3)
        end in
      match fp, ep with
      | None, None =>
          Some (VInt (if neg then - digits_value ip else digits_value ip), s4)
      | _, _ =>
          let fd := match fp with Some ds => ds | None => [] end in
          let x := match ep with Some x => x | None => 0 end in
          Some (VFloat (float_of_decimal neg (digits_value (ip ++ fd))
                          (x - Z.of_nat (List.length fd))), s4)
      end
  end.

(** A constant [name] at the head of [s]. *)
Definition keyword (name : pystr) (v : value) (s : pystr)
  : option (value * pystr) :=
  if startswith s name then Some (v, skipn (List.length name) s) else None.

Definition constant (s : pystr) : option (value * pystr) :=
  match keyword (py "null") VNone s with
  | Some r => Some r
  | None =>
  match keyword (py "true") (VBool true) s with
  | Some r => Some r
  | None =>
  match keyword (py "false") (VBool false) s with
  | Some r => Some r
  | None =>
  match keyword (py "NaN") (VFloat S754_nan) s with
  | Some r => Some r
  | None =>
  match keyword (py "Infinity") (VFloat (S754_infinity false)) s with
  | Some r => Some r
  | None => keyword (py "-Infinity") (VFloat (S754_infinity true)) s
  end end end end end.

(** [sys.get_int_max_str_digits()] *)
Definition max_str_digits : Z := 4300.

(** [int(literal)] on the digits of a number: the message of the
    [ValueError] when the literal has more digits than the limit. *)
Definition int_limit (v : value) : option pystr :=
  match v with
  | VInt n =>
      if max_str_digits <? ndigits (Z.abs n) then
        Some (py "Exceeds the limit (4300 digits) for integer string conversion: value has "
                ++ str_of_Z (ndigits (Z.abs n))
                ++ py " digits; use sys.set_int_max_str_digits() to increase the limit")
      else None
  | _ => None
  end.

(** [scan_once] at the head of [s]; [array_items] and [object_members] are
    the loops of [parse_array] and [parse_object], entered before a value
    and before a key.  [depth] is the recursion depth that is left: an
    object or an array takes one level of it for what it holds. *)
Fixpoint scan_once (fuel : nat) (depth : nat) (s : pystr) {struct fuel}
  : pres value :=
  match fuel with
  | O => PFuel
  | S f =>
      match s with
      | [] => PErr (py "Expecting value")
      | c :: r =>
          if c =? 34 then
            match scanstring r [] with
            | POk k rest => POk (VStr k) rest
            | PErr m => PErr m
            | PLimit m => PLimit m
            | PFuel => PFuel
            end
          else if c =? 123 then
            match depth with
            | O =>
                PLimit (py "maximum recursion depth exceeded while decoding a JSON object from a unicode string")
            | S d =>
                match skip_ws r with
                | c' :: r' =>
                    if c' =? 125 then POk (VDict []) r'
                    else object_members f d (c' :: r') []
                | [] => object_members f d [] []
                end
            end
          else if c =? 91 then
            match depth with
            | O =>
                PLimit (py "maximum recursion depth exceeded while decoding a JSON array from a unicode string")
            | S d =>
                match skip_ws r with
                | c' :: r' =>
                    if c' =? 93 then POk (VList []) r'
                    else array_items f d (c' :: r') []
                | [] => array_items f d [] []
                end
            end
          else
            match constant s with
            | Some (v, rest) => POk v rest
            | None =>
                match match_number s with
                | Some (v, rest) =>
                    match int_limit v with
                    | Some m => PLimit m
                    | None => POk v rest
                    end
                | None => PErr (py "Expecting value")
                end
            end
      end
  end
with array_items (fuel : nat) (depth : nat) (s : pystr) (acc : list value)
  {struct fuel} : pres value :=
  match fuel with
  | O => PFuel
  | S f =>
      match scan_once f depth s with
      | POk v rest =>
          match skip_ws rest with
          | c :: r =>
              if c =? 93 then POk (VList (rev (v :: acc))) r
              else if c =? 44 then array_items f depth (skip_ws r) (v :: acc)
              else PErr (py "Expecting ',' delimiter")
          | [] => PErr (py "Expecting ',' delimiter")
          end
      | PErr m => PErr m
      | PLimit m => PLimit m
      | PFuel => PFuel
      end
  end
with object_members (fuel : nat) (depth : nat) (s : pystr) (acc : pydict)
  {struct fuel} : pres value :=
  match fuel with
  | O => PFuel
  | S f =>
      match s with
      | q :: r =>
          if q =? 34 then
            match scanstring r [] with
            | POk key rest =>
                match skip_ws rest with
                | colon :: r1 =>
                    if colon =? 58 then
                      match scan_once f depth (skip_ws r1) with
                      | POk v rest' =>
                          match skip_ws rest' with
                          | c :: r2 =>
                              if c =? 125 then
                                POk (VDict (dict_set acc key v)) r2
                              else if c =? 44 then
                                object_members f depth (skip_ws r2)
                                  (dict_set acc key v)
                              else PErr (py "Expecting ',' delimiter")
                          | [] => PErr (py "Expecting ',' delimiter")
                          end
                      | PErr m => PErr m
                      | PLimit m => PLimit m
                      | PFuel => PFuel
                      end
                    else PErr (py "Expecting ':' delimiter")
                | [] => PErr (py "Expecting ':' delimiter")
                end
            | PErr m => PErr m
            | PLimit m => PLimit m
            | PFuel => PFuel
            end
          else
            PErr (py "Expecting property name enclosed in double quotes")
      | [] => PErr (py "Expecting property name enclosed in double quotes")
      end
  end.

(** [json.loads(s)] for a [str], with [depth] levels of recursion left.
    The scanner gets more than twice the length of the text as fuel, which
    it cannot use up ([scan_fuel], [decode_outcome]); [RecursionError] and
    [ValueError] are exceptions other than [JSONDecodeError]. *)
Definition decode_within (depth : nat) (s : pystr) : outcome value :=
  if startswith s [65279] then
    Raise (JSONDecodeError
             (py "Unexpected UTF-8 BOM (decode using utf-8-sig)"))
  else
    match scan_once (S (2 * List.length s)) depth (skip_ws s) with
    | POk v rest =>
        match skip_ws rest with
        | [] => Return v
        | _ :: _ => Raise (JSONDecodeError (py "Extra data"))
        end
    | PErr m => Raise (JSONDecodeError m)
    | PLimit m => Raise (Fault m)
    | PFuel => Raise (Fault (py "maximum recursion depth exceeded"))
    end.

(** [sys.getrecursionlimit()] *)
Definition recursion_limit : nat := 1000.

Definition decode (s : pystr) : outcome value := decode_within recursion_limit s.

End Json.

Functional Scheme scanstring_ind := Induction for Json.scanstring Sort Prop.

(** ** The limits of [json.dumps] and a UTF-8 output stream

    The two limits of CPython 3.11 on [json.dumps], met in the order in
    which the encoder walks the value: a [list] or a [dict] is entered only
    while recursion depth is left ([RecursionError]), and an [int] of more
    than 4300 digits is not converted to text ([ValueError]). *)
Fixpoint dumps_fault_within (depth : nat) (v : value) {struct v} : option exn :=
  match v with
  | VInt n =>
      if Json.max_str_digits <? ndigits (Z.abs n) then
        Some (Fault (py "Exceeds the limit (4300 digits) for integer string conversion; use sys.set_int_max_str_digits() to increase the limit"))
      else None
  | VList l =>
      match depth with
      | O =>
          Some (Fault (py "maximum recursion depth exceeded while encoding a JSON object"))
      | S d =>
          (fix items (l : list value) : option exn :=
             match l with
             | [] => None
             | x :: l' =>
                 match dumps_fault_within d x with
                 | Some e => Some e
                 | None => items l'
                 end
             end) l
      end
  | VDict m =>
      match depth with
      | O =>
          Some (Fault (py "maximum recursion depth exceeded while encoding a JSON object"))
      | S d =>
          (fix members (m : list (pystr * value)) : option exn :=
             match m with
             | [] => None
             | (_, x) :: m' =>
                 match dumps_fault_within d x with
                 | Some e => Some e
                 | None => members m'
                 end
             end) m
      end
  | _ => None
  end.

Definition is_surrogate (c : Z) : bool := (55296 <=? c) && (c <=? 57343).

(** The text before the first surrogate, and the text from it on. *)
Fixpoint until_surrogate (s : pystr) : pystr * pystr :=
  match s with
  | c :: s' =>
      if is_surrogate c then ([], s)
      else let (a, b) := until_surrogate s' in (c :: a, b)
  | [] => ([], [])
  end.

(** The surrogates at the head of [s]. *)
Fixpoint surrogate_run (s : pystr) : pystr :=
  match s with
  | c :: s' => if is_surrogate c then c :: surrogate_run s' else []
  | [] => []
  end.

(** [print(text)] on a stream that encodes to UTF-8 with [errors='strict']:
    a surrogate cannot be encoded, and [str(e)] of the [UnicodeEncodeError]
    names the first run of surrogates. *)
Definition utf8_print (text : pystr) : outcome unit :=
  let (before, rest) := until_surrogate text in
  let start := Z.of_nat (List.length before) in
  match surrogate_run rest with
  | [] => Return tt
  | [c] =>
      Raise (Fault (py "'utf-8' codec can't encode character '" ++ escape_u c
                      ++ py "' in position " ++ str_of_Z start
                      ++ py ": surrogates not allowed"))
  | run =>
      Raise (Fault (py "'utf-8' codec can't encode characters in position "
                      ++ str_of_Z start ++ py "-"
                      ++ str_of_Z (start + Z.of_nat (List.length run) - 1)
                      ++ py ": surrogates not allowed"))
  end.

(** ** Requests

    The two kinds of request that the dispatch rule names, as conditions on
    the event that API Gateway passes in. *)

(** POST on the path /files. *)
Definition post_files (event : pydict) : Prop :=
  dict_get event (py "httpMethod") = Some (VStr (py "POST")) /\
  dict_get event (py "path") = Some (VStr (py "/files")).

(** GET on a path under /files/. *)
Definition get_files (event : pydict) : Prop :=
  dict_get event (py "httpMethod") = Some (VStr (py "GET")) /\
  exists p, dict_get event (py "path") = Some (VStr p) /\
            startswith p (py "/files/") = true.

(** The path parameter [objectKey] of the event is the [str] [key]. *)
Definition object_key_is (event : pydict) (key : pystr) : Prop :=
  exists pp, dict_get event (py "pathParameters") = Some (VDict pp) /\
             dict_get pp (py "objectKey") = Some (VStr key).

(** [filename] is absent from the JSON object [d], or its value is empty
    (false in a condition). *)
Definition filename_missing (d : pydict) : Prop :=
  match dict_get d (py "filename") with
  | None => True
  | Some f => truthy f = false
  end.

(** The existence check reports not-found: a [ClientError] whose error code
    is ['404']. *)
Definition not_found_error (e : exn) : bool :=
  match e with
  | ClientError code _ => str_eqb code (py "404")
  | _ => false
  end.

(** The fault is a [ClientError], which the two [except ClientError] clauses
    around the presign calls catch. *)
Definition is_client_error (e : exn) : bool :=
  match e with
  | ClientError _ _ => true
  | _ => false
  end.

(** The line that an [except ClientError] clause around a presign call
    prints (lines 77 and 138), and the line of the [except Exception]
    clause of the handler (line 33). *)
Definition presign_error_line (e : exn) : pystr :=
  py "Error generating pre-signed URL: " ++ str_exn e.

Definition error_line (e : exn) : pystr := py "Error: " ++ str_exn e.

(** What an operation comes to when its presign call raises [e]: a
    [ClientError] is printed and answered 500 with the message [msg], unless
    the [print] raises; any other exception leaves the operation. *)
Definition presign_failure (env : Env) (msg : pystr) (e : exn)
  : outcome Response :=
  if is_client_error e then
    match py_print env (presign_error_line e) with
    | Return _ => Return (error_response 500 msg)
    | Raise e' => Raise e'
    end
  else Raise e.

(** Line 16 returns: [json.dumps(event)] is within the limits of the
    interpreter and [print] takes the line. *)
Definition entry_logged (env : Env) (event : value) : Prop :=
  dumps_fault env event = None /\
  py_print env (py "Event: " ++ json_dumps event) = Return tt.

(** The [print] of line 33 returns, when the [try] body has raised. *)
Definition error_logged (env : Env) (o : outcome Response) : Prop :=
  match o with
  | Raise e => py_print env (error_line e) = Return tt
  | Return _ => True
  end.

(** The path parameters of the event are a [dict] (the empty one when the
    event has no [pathParameters] key) in which [objectKey] is absent or
    empty. *)
Definition object_key_missing (event : pydict) : Prop :=
  exists pp,
    dict_get_default event (py "pathParameters") (VDict []) = VDict pp /\
    match dict_get pp (py "objectKey") with
    | None => True
    | Some k => truthy k = false
    end.

(** The shape of a response of the handler: JSON content type on all of
    them; 200 and 307 are the two successes, and the 307 carries [Location];
    400, 404 and 500 are the errors, whose body is [{"error": msg}]. *)
Definition response_shape (r : Response) : Prop :=
  header (headers r) (py "Content-Type") = Some (py "application/json") /\
  ((statusCode r = 200 /\ headers r = json_headers) \/
   (statusCode r = 307 /\
    exists url, headers r = [(py "Location", url);
                             (py "Content-Type", py "application/json")]) \/
   ((statusCode r = 400 \/ statusCode r = 404 \/ statusCode r = 500) /\
    headers r = json_headers /\
    exists msg, body r = json_dumps (VDict [(py "error", VStr msg)]))).

(** The [Params] of the two presign calls. *)
Definition put_params (bucket key content_type : value) : pydict :=
  [(py "Bucket", bucket); (py "Key", key); (py "ContentType", content_type)].

Definition get_params (bucket key : value) : pydict :=
  [(py "Bucket", bucket); (py "Key", key)].

(** The bodies of the two success responses. *)
Definition upload_body (key : value) (url : pystr) (content_type : value)
  : pystr :=
  json_dumps (VDict [(py "objectKey", key);
                     (py "uploadUrl", VStr url);
                     (py "method", VStr (py "PUT"));
                     (py "contentType", content_type);
                     (py "expiresIn", VInt 900)]).

Definition download_body : pystr :=
  json_dumps (VDict [(py "message", VStr (py "Redirecting to download URL"));
                     (py "expiresIn", VInt 3600)]).

(** Text made of ASCII characters only. *)
Definition ascii_text (s : pystr) : Prop := Forall (fun c => 0 <= c <= 127) s.

(** Induction on a value, with the property at hand for the items of a
    list and for the values of a dict. *)
Section ValueInduction.

Variable P : value -> Prop.

Hypothesis P_none : P VNone.
Hypothesis P_bool : forall b, P (VBool b).
Hypothesis P_int : forall n, P (VInt n).
Hypothesis P_float : forall f, P (VFloat f).
Hypothesis P_str : forall s, P (VStr s).
Hypothesis P_list : forall l, Forall P l -> P (VList l).
Hypothesis P_dict : forall d, Forall (fun kv => P (snd kv)) d -> P (VDict d).

Fixpoint value_induction (v : value) : P v :=
  match v with
  | VNone => P_none
  | VBool b => P_bool b
  | VInt n => P_int n
  | VFloat f => P_float f
  | VStr s => P_str s
  | VList l =>
      P_list l
        ((fix items (l : list value) : Forall P l :=
            match l with
            | [] => Forall_nil P
            | x :: l' => Forall_cons x (value_induction x) (items l')
            end) l)
  | VDict d =>
      P_dict d
        ((fix members (d : list (pystr * value))
            : Forall (fun kv => P (snd kv)) d :=
            match d with
            | [] => Forall_nil _
            | kv :: d' =>
                Forall_cons kv (value_induction (snd kv)) (members d')
            end) d)
  end.

End ValueInduction.

(** A Unicode scalar value: a code point that is not a surrogate. *)
Definition scalar_value (c : Z) : Prop :=
  0 <= c < 55296 \/ 57344 <= c <= 1114111.

(** ** The runs of the handler

    What the [try] body of [lambda_handler] can come to, with the calls it
    has made to the store: the four answers given before any call, a fault
    before any call, and the runs of the two operations that reach the
    store. *)

Definition upload_ok (key : value) (url : pystr) (content_type : value)
  : Response :=
  mkResponse 200 json_headers (upload_body key url content_type).

Definition download_redirect (url : pystr) : Response :=
  mkResponse 307
    [(py "Location", url); (py "Content-Type", py "application/json")]
    download_body.

Definition put_call (env : Env) (key content_type : value) : s3_call :=
  GeneratePresignedUrl (py "put_object")
    (put_params (BUCKET_NAME env) key content_type) 900.

Definition head_call (env : Env) (k : pystr) : s3_call :=
  HeadObject (BUCKET_NAME env) (VStr k).

Definition get_call (env : Env) (k : pystr) : s3_call :=
  GeneratePresignedUrl (py "get_object")
    (get_params (BUCKET_NAME env) (VStr k)) 3600.

Inductive run (env : Env) : outcome Response -> list s3_call -> Prop :=
| run_not_routed :
    run env (Return (error_response 404 (py "Not found"))) []
| run_invalid_json :
    run env (Return (error_response 400 (py "Invalid JSON in request body"))) []
| run_no_filename :
    run env (Return (error_response 400 (py "filename is required"))) []
| run_no_key :
    run env (Return (error_response 400 (py "objectKey is required"))) []
| run_fault (e : exn) :
    run env (Raise e) []
| run_upload (key content_type : value) (url : pystr) :
    truthy key = true ->
    generate_presigned_url env (py "put_object")
      (put_params (BUCKET_NAME env) key content_type) 900 = Return url ->
    run env (Return (upload_ok key url content_type))
      [put_call env key content_type]
| run_upload_failed (key content_type : value) (e : exn) :
    truthy key = true ->
    generate_presigned_url env (py "put_object")
      (put_params (BUCKET_NAME env) key content_type) 900 = Raise e ->
    run env (presign_failure env (py "Failed to generate upload URL") e)
      [put_call env key content_type]
| run_head_failed (k : pystr) (e : exn) :
    k <> [] ->
    head_object env (BUCKET_NAME env) (VStr k) = Raise e ->
    run env
      (if not_found_error e
       then Return (error_response 404 (py "File not found"))
       else Raise e)
      [head_call env k]
| run_download (k url : pystr) (r : value) :
    k <> [] ->
    head_object env (BUCKET_NAME env) (VStr k) = Return r ->
    generate_presigned_url env (py "get_object")
      (get_params (BUCKET_NAME env) (VStr k)) 3600 = Return url ->
    run env (Return (download_redirect url)) [head_call env k; get_call env k]
| run_download_failed (k : pystr) (r : value) (e : exn) :
    k <> [] ->
    head_object env (BUCKET_NAME env) (VStr k) = Return r ->
    generate_presigned_url env (py "get_object")
      (get_params (BUCKET_NAME env) (VStr k)) 3600 = Raise e ->
    run env (presign_failure env (py "Failed to generate download URL") e)
      [head_call env k; get_call env k].

(** ** Sample collaborators and events *)
Module Sample.

Definition bucket : value := VStr (py "file-gateway-bucket").

Definition signed_url : pystr := py "https://s3.example/signed?X-Amz-Expires".

(** The interpreter and the output stream of the samples: the limits of
    CPython 3.11 with the default recursion limit, and a UTF-8 stream. *)
Definition limits : value -> option exn :=
  dumps_fault_within Json.recursion_limit.

(** A store in which every object exists and every call succeeds. *)
Definition env_ok : Env :=
  mkEnv bucket Json.decode
    (fun _ _ => Return (VDict []))
    (fun _ _ _ => Return signed_url)
    limits utf8_print.

(** A store that has no object: [head_object] reports 404. *)
Definition env_missing : Env :=
  mkEnv bucket Json.decode
    (fun _ _ =>
       Raise (ClientError (py "404")
                (py "An error occurred (404) when calling the HeadObject operation: Not Found")))
    (fun _ _ _ => Return signed_url)
    limits utf8_print.

(** A store that refuses the caller: [head_object] reports 403. *)
Definition denied : exn :=
  ClientError (py "403")
    (py "An error occurred (403) when calling the HeadObject operation: Forbidden").

Definition env_denied : Env :=
  mkEnv bucket Json.decode
    (fun _ _ => Raise denied)
    (fun _ _ _ => Return signed_url)
    limits utf8_print.

Definition post_event (body : pystr) : pydict :=
  [(py "httpMethod", VStr (py "POST"));
   (py "path", VStr (py "/files"));
   (py "pathParameters", VNone);
   (py "body", VStr body)].

(** A POST event without the [body] key. *)
Definition post_event_no_body : pydict :=
  [(py "httpMethod", VStr (py "POST"));
   (py "path", VStr (py "/files"))].

Definition get_event (key : pystr) : pydict :=
  [(py "httpMethod", VStr (py "GET"));
   (py "path", VStr (py "/files/" ++ key));
   (py "pathParameters", VDict [(py "objectKey", VStr key)]);
   (py "body", VNone)].

(** The JSON text [{"filename":"report.pdf","contentType":"application/pdf"}]. *)
Definition report_body : pystr :=
  [123] ++ encode_str (py "filename") ++ [58] ++ encode_str (py "report.pdf")
    ++ [44] ++ encode_str (py "contentType") ++ [58]
    ++ encode_str (py "application/pdf") ++ [125].

(** A client whose presign call raises a [ClientError]. *)
Definition refused : exn :=
  ClientError (py "AccessDenied")
    (py "An error occurred (AccessDenied) when calling the operation: Access Denied").

Definition env_refused : Env :=
  mkEnv bucket Json.decode
    (fun _ _ => Return (VDict []))
    (fun _ _ _ => Raise refused)
    limits utf8_print.

(** A client without credentials: the presign call raises an error of the
    library that is not a [ClientError]. *)
Definition no_credentials : exn := Fault (py "Unable to locate credentials").

Definition env_no_credentials : Env :=
  mkEnv bucket Json.decode
    (fun _ _ => Return (VDict []))
    (fun _ _ _ => Raise no_credentials)
    limits utf8_print.



(** A GET under /files/ without a [pathParameters] key. *)
Definition get_event_no_parameters : pydict :=
  [(py "httpMethod", VStr (py "GET"));
   (py "path", VStr (py "/files/"))].

(** An interpreter whose standard output is closed: every [print] raises
    [ValueError]. *)
Definition env_closed_stream : Env :=
  mkEnv bucket Json.decode
    (fun _ _ => Return (VDict []))
    (fun _ _ _ => Return signed_url)
    limits (fun _ => Raise (Fault (py "I/O operation on closed file."))).

(** [n] lists, one inside the other, around an empty one. *)
Fixpoint nested (n : nat) : value :=
  match n with
  | O => VList []
  | S n' => VList [nested n']
  end.

(** A GET under /files/ whose event carries, beside the fields of a
    request, lists nested 2000 deep. *)
Definition event_nested : pydict :=
  get_event (py "report.pdf") ++ [(py "stageVariables", nested 2000)].

(** A body of 3000 opening brackets. *)
Definition brackets : pystr := repeat 91 3000.

(** A store whose errors carry text that UTF-8 cannot encode (a lone
    surrogate): the existence check and the presign call raise it. *)
Definition garbled : exn :=
  ClientError (py "403") (py "Forbidden: " ++ [55296]).

Definition env_garbled_head : Env :=
  mkEnv bucket Json.decode
    (fun _ _ => Raise garbled)
    (fun _ _ _ => Return signed_url)
    limits utf8_print.

Definition env_garbled_presign : Env :=
  mkEnv bucket Json.decode
    (fun _ _ => Return (VDict []))
    (fun _ _ _ => Raise garbled)
    limits utf8_print.

End Sample.

(** * Properties *)

(** ** Strings and dictionaries *)

Lemma str_eqb_refl (a : pystr) : str_eqb a a = true.
Proof.
  induction a as [|x a IH]; simpl; [reflexivity|].
  now rewrite Z.eqb_refl, IH.
Qed.

Lemma str_eqb_eq (a b : pystr) : str_eqb a b = true <-> a = b.
Proof.
  split; [|intros ->; apply str_eqb_refl].
  revert b; induction a as [|x a IH]; intros [|y b]; simpl; try discriminate.
  - reflexivity.
  - intros H. apply andb_true_iff in H as [Hx Ha].
    apply Z.eqb_eq in Hx. apply IH in Ha. congruence.
Qed.

Lemma eq_str_true (v : value) (s : pystr) : eq_str v s = true <-> v = VStr s.
Proof.
  destruct v; simpl; split; try discriminate; intros H.
  - apply str_eqb_eq in H. now subst.
  - injection H as ->. apply str_eqb_refl.
Qed.

Lemma dict_get_default_some (d : pydict) (k : pystr) (v default : value) :
  dict_get d k = Some v -> dict_get_default d k default = v.
Proof. unfold dict_get_default. now intros ->. Qed.

Lemma dict_get_default_none (d : pydict) (k : pystr) (default : value) :
  dict_get d k = None -> dict_get_default d k default = default.
Proof. unfold dict_get_default. now intros ->. Qed.

(** ** The handler and its operations *)

(** The safety net of [lambda_handler] applied to the result of the
    [try] body. *)
Lemma lambda_handler_of_route (env : Env) (event : pydict)
    (log : list s3_call) :
  lambda_handler env event log =
    match route env event log with
    | (Return r, log') => (Return r, log')
    | (Raise e, log') => (Return (error_response 500 (str_exn e)), log')
    end.
Proof.
  unfold lambda_handler, try_except.
  destruct (route env event log) as [[r|e] log']; reflexivity.
Qed.

(** The dispatch of a POST /files request and of a GET /files/... request. *)
Lemma route_post_files (env : Env) (event : pydict) :
  post_files event -> route env event = handle_upload_preparation env event.
Proof.
  intros [Hm Hp]. unfold route, dispatch.
  rewrite (dict_get_default_some _ _ _ _ Hm), (dict_get_default_some _ _ _ _ Hp).
  reflexivity.
Qed.

Lemma route_get_files (env : Env) (event : pydict) (log : list s3_call) :
  get_files event -> route env event log = handle_download env event log.
Proof.
  intros [Hm (p & Hp & Hs)]. unfold route, dispatch.
  rewrite (dict_get_default_some _ _ _ _ Hm), (dict_get_default_some _ _ _ _ Hp).
  cbn [eq_str]. replace (str_eqb (py "GET") (py "POST")) with false by reflexivity.
  cbn [andb]. rewrite str_eqb_refl.
  unfold bind, lift, py_startswith. rewrite Hs. reflexivity.
Qed.

(** [lambda_handler_logged] on an event that is a [dict], once line 16 has
    returned: the [try] statement on the result of lines 18-31, with the
    [print] of the [except] clause. *)
Lemma lambda_handler_logged_of_route (env : Env) (event : pydict)
    (log : list s3_call) :
  entry_logged env (VDict event) ->
  lambda_handler_logged env (VDict event) log =
    match route env event log with
    | (Return r, log') => (Return r, log')
    | (Raise e, log') =>
        match py_print env (error_line e) with
        | Return _ => (Return (error_response 500 (str_exn e)), log')
        | Raise e' => (Raise e', log')
        end
    end.
Proof.
  intros [Hd Hp]. unfold lambda_handler_logged, py_json_dumps. rewrite Hd.
  unfold bind at 1, lift at 1. unfold bind at 1, lift at 1. rewrite Hp.
  unfold try_except, route. cbv zeta.
  destruct (dispatch env _ _ event log) as [[r|e] log']; [reflexivity|].
  unfold bind, lift, error_line.
  destruct (py_print env _) as [[]|e']; reflexivity.
Qed.

(** C1.  On an event that is an object, when line 16 has written the event
    and the [print] of the [except] clause writes its line, the handler
    returns a response: the response of the dispatched operation when
    there is one, and status 500 with the body [{"error": str(e)}] when the
    dispatch or the operation raises [e], with the same calls made to the
    store. *)
Theorem lambda_handler_logged_responds (env : Env) (event : pydict)
    (log : list s3_call) :
  entry_logged env (VDict event) ->
  error_logged env (fst (route env event log)) ->
  (exists resp log',
     lambda_handler_logged env (VDict event) log = (Return resp, log')) /\
  match route env event log with
  | (Return r, log') =>
      lambda_handler_logged env (VDict event) log = (Return r, log')
  | (Raise e, log') =>
      lambda_handler_logged env (VDict event) log =
        (Return (mkResponse 500 json_headers
                   (json_dumps (VDict [(py "error", VStr (str_exn e))]))),
         log')
  end.
Proof.
  intros He Hl.
  rewrite (lambda_handler_logged_of_route env event log He).
  destruct (route env event log) as [[r|e] log']; [split; eauto|].
  cbn [fst error_logged] in Hl. rewrite Hl. split; eauto.
Qed.

(** A store that refuses the existence check: the 403 is printed and
    answered 500. *)
Lemma lambda_handler_logged_responds_witness :
  (exists resp log',
     lambda_handler_logged Sample.env_denied
       (VDict (Sample.get_event (py "report.pdf"))) [] = (Return resp, log')) /\
  match route Sample.env_denied (Sample.get_event (py "report.pdf")) [] with
  | (Return r, log') =>
      lambda_handler_logged Sample.env_denied
        (VDict (Sample.get_event (py "report.pdf"))) [] = (Return r, log')
  | (Raise e, log') =>
      lambda_handler_logged Sample.env_denied
        (VDict (Sample.get_event (py "report.pdf"))) [] =
        (Return (mkResponse 500 json_headers
                   (json_dumps (VDict [(py "error", VStr (str_exn e))]))),
         log')
  end.
Proof.
  apply (lambda_handler_logged_responds Sample.env_denied
           (Sample.get_event (py "report.pdf")) []).
  - split; vm_compute; reflexivity.
  - vm_compute. reflexivity.
Defined.

(** Three events on which the handler raises: an object nested beyond the
    recursion limit makes [json.dumps] raise on line 16, before the [try];
    an event that is not an object has no [get] (line 18); and an exception
    whose text the output stream cannot encode makes the [print] of the
    [except] clause raise (line 33). *)
Lemma lambda_handler_never_raises_counterexample :
  lambda_handler_logged Sample.env_ok (VDict Sample.event_nested) [] =
    (Raise (Fault (py "maximum recursion depth exceeded while encoding a JSON object")),
     []) /\
  lambda_handler_logged Sample.env_ok (VList []) [] =
    (Raise (AttributeError (py "'list' object has no attribute 'get'")), []) /\
  lambda_handler_logged Sample.env_garbled_head
    (VDict (Sample.get_event (py "report.pdf"))) [] =
    (Raise (Fault (py "'utf-8' codec can't encode character '\ud800' in position 18: surrogates not allowed")),
     [HeadObject Sample.bucket (VStr (py "report.pdf"))]).
Proof. split; [|split]; vm_compute; reflexivity. Qed.

(** ** Upload preparation *)

(** The first step of [handle_upload_preparation] on a [str] body that
    [json.loads] accepts: the rest of the function runs on the parsed
    value. *)
Lemma upload_after_parse (env : Env) (event : pydict) (log : list s3_call)
    (s : pystr) (v : value) :
  dict_get event (py "body") = Some (VStr s) ->
  json_decode env s = Return v ->
  handle_upload_preparation env event log =
    match py_get v (py "filename") VNone with
    | Raise e => (Raise e, log)
    | Return filename =>
        if negb (truthy filename)
        then (Return (error_response 400 (py "filename is required")), log)
        else
          match py_get v (py "contentType")
                  (VStr (py "application/octet-stream")) with
          | Raise e => (Raise e, log)
          | Return content_type =>
              let params := put_params (BUCKET_NAME env) filename content_type in
              let log' := log ++ [GeneratePresignedUrl (py "put_object") params 900] in
              match generate_presigned_url env (py "put_object") params 900 with
              | Return url =>
                  (Return (mkResponse 200 json_headers
                             (upload_body filename url content_type)), log')
              | Raise e =>
                  (presign_failure env (py "Failed to generate upload URL") e,
                   log')
              end
          end
    end.
Proof.
  intros Hb Hd. unfold handle_upload_preparation.
  rewrite (dict_get_default_some _ _ _ _ Hb).
  unfold try_except at 1. unfold json_loads, lift. rewrite Hd.
  unfold bind. destruct (py_get v (py "filename") VNone) as [f|e]; [|reflexivity].
  destruct (negb (truthy f)); [reflexivity|].
  destruct (py_get v (py "contentType") _) as [ct|e]; [|reflexivity].
  unfold try_except, s3_generate_presigned_url, put_params, upload_body.
  destruct (generate_presigned_url env _ _ _) as [url|[]]; try reflexivity.
  unfold presign_failure, presign_error_line, bind, lift.
  cbn [is_client_error]. destruct (py_print env _) as [[]|e']; reflexivity.
Qed.

(** C2.  A POST /files request whose body parses to a JSON object with a
    non-empty [filename] string gets, when the presign call succeeds,
    status 200 with [objectKey] the filename itself, [uploadUrl] the
    generated URL, [method] PUT, the content type of the request (or
    application/octet-stream when it has none) and [expiresIn] 900; the one
    call to the store is the presign of [put_object] with [ExpiresIn=900]. *)
Theorem upload_preparation_success (env : Env) (event : pydict)
    (log : list s3_call) (s : pystr) (d : pydict) (filename url : pystr) :
  post_files event ->
  dict_get event (py "body") = Some (VStr s) ->
  json_decode env s = Return (VDict d) ->
  dict_get d (py "filename") = Some (VStr filename) ->
  filename <> [] ->
  let content_type :=
    dict_get_default d (py "contentType")
      (VStr (py "application/octet-stream")) in
  let params := put_params (BUCKET_NAME env) (VStr filename) content_type in
  generate_presigned_url env (py "put_object") params 900 = Return url ->
  let resp :=
    mkResponse 200 json_headers
      (json_dumps (VDict [(py "objectKey", VStr filename);
                          (py "uploadUrl", VStr url);
                          (py "method", VStr (py "PUT"));
                          (py "contentType", content_type);
                          (py "expiresIn", VInt 900)])) in
  let log' := log ++ [GeneratePresignedUrl (py "put_object") params 900] in
  handle_upload_preparation env event log = (Return resp, log') /\
  lambda_handler env event log = (Return resp, log').
Proof.
  intros Hreq Hb Hd Hf Hne content_type params Hurl resp log'.
  assert (H : handle_upload_preparation env event log = (Return resp, log')).
  { rewrite (upload_after_parse env event log s (VDict d) Hb Hd).
    unfold py_get. rewrite (dict_get_default_some _ _ _ _ Hf).
    destruct filename as [|c filename]; [contradiction|].
    cbn [truthy negb]. fold content_type. cbv zeta. fold params.
    rewrite Hurl. reflexivity. }
  split; [exact H|].
  rewrite lambda_handler_of_route, (route_post_files env event Hreq), H.
  reflexivity.
Qed.

(** The scenario of the specification: the body
    [{"filename":"report.pdf","contentType":"application/pdf"}]. *)
Lemma upload_preparation_success_witness :
  lambda_handler Sample.env_ok (Sample.post_event Sample.report_body) [] =
    (Return (mkResponse 200 json_headers
               (upload_body (VStr (py "report.pdf")) Sample.signed_url
                  (VStr (py "application/pdf")))),
     [GeneratePresignedUrl (py "put_object")
        (put_params Sample.bucket (VStr (py "report.pdf"))
           (VStr (py "application/pdf"))) 900]).
Proof.
  refine (proj2 (upload_preparation_success Sample.env_ok
                   (Sample.post_event Sample.report_body) []
                   Sample.report_body
                   [(py "filename", VStr (py "report.pdf"));
                    (py "contentType", VStr (py "application/pdf"))]
                   (py "report.pdf") Sample.signed_url _ _ _ _ _ _)).
  - split; reflexivity.
  - reflexivity.
  - vm_compute. reflexivity.
  - reflexivity.
  - discriminate.
  - reflexivity.
Defined.

(** C6.  A POST /files request whose body is a string on which
    [json.loads] raises [JSONDecodeError] gets status 400 with the body
    [{"error": "Invalid JSON in request body"}], and the store is not
    called. *)
Theorem upload_invalid_json (env : Env) (event : pydict)
    (log : list s3_call) (s msg : pystr) :
  post_files event ->
  dict_get event (py "body") = Some (VStr s) ->
  json_decode env s = Raise (JSONDecodeError msg) ->
  let resp :=
    mkResponse 400 json_headers
      (json_dumps (VDict [(py "error",
                           VStr (py "Invalid JSON in request body"))])) in
  handle_upload_preparation env event log = (Return resp, log) /\
  lambda_handler env event log = (Return resp, log).
Proof.
  intros Hreq Hb Hd resp.
  assert (H : handle_upload_preparation env event log = (Return resp, log)).
  { unfold handle_upload_preparation.
    rewrite (dict_get_default_some _ _ _ _ Hb).
    unfold try_except, json_loads, lift. rewrite Hd. reflexivity. }
  split; [exact H|].
  rewrite lambda_handler_of_route, (route_post_files env event Hreq), H.
  reflexivity.
Qed.

Lemma upload_invalid_json_witness :
  lambda_handler Sample.env_ok (Sample.post_event (py "not json")) [] =
    (Return (error_response 400 (py "Invalid JSON in request body")), []).
Proof.
  refine (proj2 (upload_invalid_json Sample.env_ok
                   (Sample.post_event (py "not json")) []
                   (py "not json") (py "Expecting value") _ _ _)).
  - split; reflexivity.
  - reflexivity.
  - vm_compute. reflexivity.
Defined.

(** A body that is not JSON and that is not answered 400: 3000 opening
    brackets.  With depth to spare the scanner rejects the text, since
    nothing follows the last bracket; under the recursion limit it raises
    [RecursionError] on the way, which [except json.JSONDecodeError] does
    not catch (line 47).  Upload preparation raises, and the handler
    answers 500. *)
Lemma upload_invalid_json_counterexample :
  Json.decode_within 3001 Sample.brackets =
    Raise (JSONDecodeError (py "Expecting value")) /\
  Json.decode Sample.brackets =
    Raise (Fault (py "maximum recursion depth exceeded while decoding a JSON array from a unicode string")) /\
  handle_upload_preparation Sample.env_ok
    (Sample.post_event Sample.brackets) [] =
    (Raise (Fault (py "maximum recursion depth exceeded while decoding a JSON array from a unicode string")),
     []) /\
  lambda_handler_logged Sample.env_ok
    (VDict (Sample.post_event Sample.brackets)) [] =
    (Return (error_response 500
               (py "maximum recursion depth exceeded while decoding a JSON array from a unicode string")),
     []).
Proof. split; [|split; [|split]]; vm_compute; reflexivity. Qed.

(** C7, as the code has it.  A POST /files request whose body parses to a
    JSON object in which [filename] is absent or empty gets status 400 with
    the body [{"error": "filename is required"}], and the store is not
    called. *)
Theorem upload_filename_required (env : Env) (event : pydict)
    (log : list s3_call) (s : pystr) (d : pydict) :
  post_files event ->
  dict_get event (py "body") = Some (VStr s) ->
  json_decode env s = Return (VDict d) ->
  filename_missing d ->
  let resp :=
    mkResponse 400 json_headers
      (json_dumps (VDict [(py "error", VStr (py "filename is required"))])) in
  handle_upload_preparation env event log = (Return resp, log) /\
  lambda_handler env event log = (Return resp, log).
Proof.
  intros Hreq Hb Hd Hf resp.
  assert (H : handle_upload_preparation env event log = (Return resp, log)).
  { rewrite (upload_after_parse env event log s (VDict d) Hb Hd).
    unfold py_get, dict_get_default. unfold filename_missing in Hf.
    destruct (dict_get d (py "filename")) as [f|].
    - rewrite Hf. reflexivity.
    - reflexivity. }
  split; [exact H|].
  rewrite lambda_handler_of_route, (route_post_files env event Hreq), H.
  reflexivity.
Qed.

(** The body [{"contentType": "text/plain"}] has no [filename]. *)
Lemma upload_filename_required_witness :
  lambda_handler Sample.env_ok
    (Sample.post_event
       ([123] ++ encode_str (py "contentType") ++ [58]
          ++ encode_str (py "text/plain") ++ [125])) [] =
    (Return (error_response 400 (py "filename is required")), []).
Proof.
  refine (proj2 (upload_filename_required Sample.env_ok _ []
                   ([123] ++ encode_str (py "contentType") ++ [58]
                      ++ encode_str (py "text/plain") ++ [125])
                   [(py "contentType", VStr (py "text/plain"))] _ _ _ _)).
  - split; reflexivity.
  - reflexivity.
  - vm_compute. reflexivity.
  - exact I.
Defined.

(** C7, as stated, fails on a body that is JSON but not an object.  The
    body [[]] parses to the empty list, which has no [filename]; [body.get]
    raises [AttributeError] on it, the operation returns no response, and
    the handler answers 500 with the text of the fault, not 400. *)
Lemma upload_filename_required_counterexample :
  post_files (Sample.post_event (py "[]")) /\
  dict_get (Sample.post_event (py "[]")) (py "body") = Some (VStr (py "[]")) /\
  json_decode Sample.env_ok (py "[]") = Return (VList []) /\
  handle_upload_preparation Sample.env_ok (Sample.post_event (py "[]")) [] =
    (Raise (AttributeError (py "'list' object has no attribute 'get'")), []) /\
  lambda_handler Sample.env_ok (Sample.post_event (py "[]")) [] =
    (Return (error_response 500 (py "'list' object has no attribute 'get'")),
     []) /\
  fst (lambda_handler Sample.env_ok (Sample.post_event (py "[]")) []) <>
    Return (error_response 400 (py "filename is required")).
Proof.
  repeat split; try reflexivity.
  vm_compute. discriminate.
Qed.

(** C10.  A POST /files request whose event has no [body] key is parsed
    from the default text [{}], the empty JSON object: it is not a parse
    failure, and the response is status 400 with the body
    [{"error": "filename is required"}]. *)
Theorem upload_absent_body (env : Env) (event : pydict)
    (log : list s3_call) :
  post_files event ->
  dict_get event (py "body") = None ->
  json_decode env (py "{}") = Return (VDict []) ->
  let resp :=
    mkResponse 400 json_headers
      (json_dumps (VDict [(py "error", VStr (py "filename is required"))])) in
  handle_upload_preparation env event log = (Return resp, log) /\
  lambda_handler env event log = (Return resp, log).
Proof.
  intros Hreq Hb Hd resp.
  assert (H : handle_upload_preparation env event log = (Return resp, log)).
  { unfold handle_upload_preparation.
    rewrite (dict_get_default_none _ _ _ Hb).
    unfold try_except at 1. unfold json_loads, lift. rewrite Hd.
    reflexivity. }
  split; [exact H|].
  rewrite lambda_handler_of_route, (route_post_files env event Hreq), H.
  reflexivity.
Qed.

Lemma upload_absent_body_witness :
  lambda_handler Sample.env_ok Sample.post_event_no_body [] =
    (Return (error_response 400 (py "filename is required")), []).
Proof.
  refine (proj2 (upload_absent_body Sample.env_ok Sample.post_event_no_body
                   [] _ _ _)).
  - split; reflexivity.
  - reflexivity.
  - vm_compute. reflexivity.
Defined.

(** ** Download *)

(** [handle_download] on a non-empty [str] key: the decoded key goes to the
    existence check and, when the object exists, to the presign call. *)
Lemma download_after_key (env : Env) (event : pydict) (log : list s3_call)
    (k : pystr) :
  object_key_is event k ->
  k <> [] ->
  let bucket := BUCKET_NAME env in
  let key := VStr (unquote k) in
  let log1 := log ++ [HeadObject bucket key] in
  let log2 :=
    log1 ++ [GeneratePresignedUrl (py "get_object") (get_params bucket key) 3600] in
  handle_download env event log =
    match head_object env bucket key with
    | Raise e =>
        if not_found_error e
        then (Return (error_response 404 (py "File not found")), log1)
        else (Raise e, log1)
    | Return _ =>
        match generate_presigned_url env (py "get_object")
                (get_params bucket key) 3600 with
        | Return url =>
            (Return (mkResponse 307
                       [(py "Location", url);
                        (py "Content-Type", py "application/json")]
                       download_body), log2)
        | Raise e =>
            (presign_failure env (py "Failed to generate download URL") e,
             log2)
        end
    end.
Proof.
  intros (pp & Hpp & Hk) Hne bucket key log1 log2.
  unfold handle_download.
  rewrite (dict_get_default_some _ _ _ _ Hpp).
  unfold bind at 1. unfold lift at 1. unfold py_get.
  rewrite (dict_get_default_some _ _ _ _ Hk).
  destruct k as [|c k]; [contradiction|].
  cbn [truthy negb]. unfold bind, lift, py_unquote.
  unfold try_except at 1. unfold s3_head_object.
  fold bucket. fold key. fold log1.
  destruct (head_object env bucket key) as [r|e].
  - unfold try_except, s3_generate_presigned_url, get_params, download_body.
    fold log2.
    destruct (generate_presigned_url env _ _ _) as [url|[]]; try reflexivity.
    unfold presign_failure, presign_error_line, bind, lift.
    cbn [is_client_error]. destruct (py_print env _) as [[]|e']; reflexivity.
  - destruct e as [m|code m|m|m|m]; try reflexivity.
    cbn [not_found_error]. destruct (str_eqb code (py "404")); reflexivity.
Qed.

(** C3.  A GET /files/{objectKey} request with a non-empty key, for which
    the existence check and the presign call succeed, gets status 307 with
    the header [Location] equal to the generated URL (non-empty when the
    URL is) and the body
    [{"message": "Redirecting to download URL", "expiresIn": 3600}]; the
    presign call is made with [ExpiresIn=3600]. *)
Theorem download_success (env : Env) (event : pydict) (log : list s3_call)
    (k url : pystr) (r : value) :
  get_files event ->
  object_key_is event k ->
  k <> [] ->
  let bucket := BUCKET_NAME env in
  let key := VStr (unquote k) in
  head_object env bucket key = Return r ->
  generate_presigned_url env (py "get_object") (get_params bucket key) 3600
    = Return url ->
  url <> [] ->
  let resp :=
    mkResponse 307
      [(py "Location", url); (py "Content-Type", py "application/json")]
      (json_dumps
         (VDict [(py "message", VStr (py "Redirecting to download URL"));
                 (py "expiresIn", VInt 3600)])) in
  let log' :=
    log ++ [HeadObject bucket key]
        ++ [GeneratePresignedUrl (py "get_object") (get_params bucket key) 3600] in
  handle_download env event log = (Return resp, log') /\
  lambda_handler env event log = (Return resp, log') /\
  (exists location, header (headers resp) (py "Location") = Some location /\
                    location = url /\ location <> []).
Proof.
  intros Hreq Hk Hne bucket key Hhead Hurl Hnonempty resp log'.
  assert (H : handle_download env event log = (Return resp, log')).
  { rewrite (download_after_key env event log k Hk Hne).
    fold bucket. fold key. rewrite Hhead, Hurl.
    unfold log'. rewrite app_assoc. reflexivity. }
  split; [exact H|]. split.
  - rewrite lambda_handler_of_route, (route_get_files env event log Hreq), H.
    reflexivity.
  - exists url. split; [reflexivity | split; [reflexivity | assumption]].
Qed.

Lemma download_success_witness :
  lambda_handler Sample.env_ok (Sample.get_event (py "report.pdf")) [] =
    (Return (mkResponse 307
               [(py "Location", Sample.signed_url);
                (py "Content-Type", py "application/json")]
               download_body),
     [HeadObject Sample.bucket (VStr (py "report.pdf"));
      GeneratePresignedUrl (py "get_object")
        (get_params Sample.bucket (VStr (py "report.pdf"))) 3600]).
Proof.
  refine (proj1 (proj2 (download_success Sample.env_ok
                          (Sample.get_event (py "report.pdf")) []
                          (py "report.pdf") Sample.signed_url (VDict [])
                          _ _ _ _ _ _))).
  - split; [reflexivity|]. exists (py "/files/report.pdf"). split; reflexivity.
  - exists [(py "objectKey", VStr (py "report.pdf"))]. split; reflexivity.
  - discriminate.
  - reflexivity.
  - reflexivity.
  - discriminate.
Defined.

(** C5.  On a GET /files/{objectKey} request with a non-empty key whose
    existence check raises: a not-found report gives status 404 with the
    body [{"error": "File not found"}]; any other fault leaves
    [handle_download] as it is, and the handler turns it into status 500
    with the text of the fault.  No presign call is made in either case. *)
Theorem download_existence_check (env : Env) (event : pydict)
    (log : list s3_call) (k : pystr) (e : exn) :
  get_files event ->
  object_key_is event k ->
  k <> [] ->
  let bucket := BUCKET_NAME env in
  let key := VStr (unquote k) in
  head_object env bucket key = Raise e ->
  let log' := log ++ [HeadObject bucket key] in
  let not_found :=
    mkResponse 404 json_headers
      (json_dumps (VDict [(py "error", VStr (py "File not found"))])) in
  let failure :=
    mkResponse 500 json_headers
      (json_dumps (VDict [(py "error", VStr (str_exn e))])) in
  handle_download env event log =
    (if not_found_error e then Return not_found else Raise e, log') /\
  lambda_handler env event log =
    (Return (if not_found_error e then not_found else failure), log').
Proof.
  intros Hreq Hk Hne bucket key Hhead log' not_found failure.
  assert (H : handle_download env event log =
              (if not_found_error e then Return not_found else Raise e, log')).
  { rewrite (download_after_key env event log k Hk Hne).
    fold bucket. fold key. rewrite Hhead.
    destruct (not_found_error e); reflexivity. }
  split; [exact H|].
  rewrite lambda_handler_of_route, (route_get_files env event log Hreq), H.
  destruct (not_found_error e); reflexivity.
Qed.

(** The scenario of the specification, GET /files/missing.txt on a store
    that reports not-found, and the same request on a store that answers
    403. *)
Lemma download_existence_check_witness :
  lambda_handler Sample.env_missing (Sample.get_event (py "missing.txt")) [] =
    (Return (error_response 404 (py "File not found")),
     [HeadObject Sample.bucket (VStr (py "missing.txt"))]) /\
  handle_download Sample.env_denied (Sample.get_event (py "missing.txt")) [] =
    (Raise Sample.denied,
     [HeadObject Sample.bucket (VStr (py "missing.txt"))]) /\
  lambda_handler Sample.env_denied (Sample.get_event (py "missing.txt")) [] =
    (Return (error_response 500 (str_exn Sample.denied)),
     [HeadObject Sample.bucket (VStr (py "missing.txt"))]).
Proof.
  assert (Hreq : get_files (Sample.get_event (py "missing.txt"))).
  { split; [reflexivity|]. exists (py "/files/missing.txt"). split; reflexivity. }
  assert (Hk : object_key_is (Sample.get_event (py "missing.txt"))
                 (py "missing.txt")).
  { exists [(py "objectKey", VStr (py "missing.txt"))]. split; reflexivity. }
  assert (Hne : py "missing.txt" <> []) by discriminate.
  split; [|split].
  - exact (proj2 (download_existence_check Sample.env_missing _ [] _ _
                    Hreq Hk Hne eq_refl)).
  - exact (proj1 (download_existence_check Sample.env_denied _ [] _ _
                    Hreq Hk Hne eq_refl)).
  - exact (proj2 (download_existence_check Sample.env_denied _ [] _ _
                    Hreq Hk Hne eq_refl)).
Defined.

(** C8.  On a GET /files/{objectKey} request with a non-empty key, the key
    that reaches the store is the percent-decoded one: the existence check
    is called with it, the presign call (made when the object exists) is
    called with the same key, and no other call is made.  The path
    parameter [a%20b.txt] is looked up as [a b.txt]. *)
Theorem download_key_is_unquoted (env : Env) (event : pydict)
    (log : list s3_call) (k : pystr) :
  get_files event ->
  object_key_is event k ->
  k <> [] ->
  let bucket := BUCKET_NAME env in
  let key := VStr (unquote k) in
  let calls :=
    match head_object env bucket key with
    | Return _ =>
        [HeadObject bucket key;
         GeneratePresignedUrl (py "get_object")
           [(py "Bucket", bucket); (py "Key", key)] 3600]
    | Raise _ => [HeadObject bucket key]
    end in
  snd (handle_download env event log) = log ++ calls /\
  snd (lambda_handler env event log) = log ++ calls /\
  unquote (py "a%20b.txt") = py "a b.txt".
Proof.
  intros Hreq Hk Hne bucket key calls.
  assert (H : snd (handle_download env event log) = log ++ calls).
  { rewrite (download_after_key env event log k Hk Hne).
    fold bucket. fold key. unfold calls.
    destruct (head_object env bucket key) as [r|e].
    - unfold get_params.
      destruct (generate_presigned_url env _ _ _) as [url|[]];
        cbn [snd]; rewrite <- app_assoc; reflexivity.
    - destruct (not_found_error e); reflexivity. }
  split; [exact H|]. split; [|reflexivity].
  rewrite lambda_handler_of_route, (route_get_files env event log Hreq).
  rewrite <- H.
  destruct (handle_download env event log) as [[r|e] log']; reflexivity.
Qed.

Lemma download_key_is_unquoted_witness :
  snd (lambda_handler Sample.env_ok (Sample.get_event (py "a%20b.txt")) []) =
    [HeadObject Sample.bucket (VStr (py "a b.txt"));
     GeneratePresignedUrl (py "get_object")
       [(py "Bucket", Sample.bucket); (py "Key", VStr (py "a b.txt"))] 3600].
Proof.
  refine (proj1 (proj2 (download_key_is_unquoted Sample.env_ok
                          (Sample.get_event (py "a%20b.txt")) []
                          (py "a%20b.txt") _ _ _))).
  - split; [reflexivity|]. exists (py "/files/a%20b.txt"). split; reflexivity.
  - exists [(py "objectKey", VStr (py "a%20b.txt"))]. split; reflexivity.
  - discriminate.
Defined.

(** ** Dispatch *)

(** C4.  The dispatch looks at the method and the path only: POST with the
    path /files runs upload preparation, GET with a path that starts with
    /files/ runs download, and every other pair of a method and a path (the
    path of a request is a string) gets status 404 with the body
    [{"error": "Not found"}] and no call to the store. *)
Theorem dispatch_by_method_and_path (env : Env) (event : pydict)
    (log : list s3_call) :
  let http_method := dict_get_default event (py "httpMethod") VNone in
  let path := dict_get_default event (py "path") (VStr []) in
  (http_method = VStr (py "POST") /\ path = VStr (py "/files") ->
   route env event log = handle_upload_preparation env event log) /\
  (forall p,
     http_method = VStr (py "GET") /\ path = VStr p /\
     startswith p (py "/files/") = true ->
     route env event log = handle_download env event log) /\
  (~ (http_method = VStr (py "POST") /\ path = VStr (py "/files")) ->
   (http_method = VStr (py "GET") ->
    exists p, path = VStr p /\ startswith p (py "/files/") = false) ->
   let resp :=
     mkResponse 404 json_headers
       (json_dumps (VDict [(py "error", VStr (py "Not found"))])) in
   route env event log = (Return resp, log) /\
   lambda_handler env event log = (Return resp, log)).
Proof.
  intros http_method path. split; [|split].
  - intros [Hm Hp]. unfold route, dispatch. fold http_method.
    change (dict_get_default event (py "path") (VStr [])) with path.
    rewrite Hm, Hp. reflexivity.
  - intros p (Hm & Hp & Hs). unfold route, dispatch. fold http_method.
    change (dict_get_default event (py "path") (VStr [])) with path.
    rewrite Hm, Hp. cbn [eq_str].
    replace (str_eqb (py "GET") (py "POST")) with false by reflexivity.
    cbn [andb]. rewrite str_eqb_refl.
    unfold bind, lift, py_startswith. rewrite Hs. reflexivity.
  - intros Hpost Hget resp.
    assert (H : route env event log = (Return resp, log)).
    { unfold route, dispatch. fold http_method.
      change (dict_get_default event (py "path") (VStr [])) with path.
      destruct (eq_str http_method (py "POST") && eq_str path (py "/files"))
        eqn:E.
      - apply andb_true_iff in E as [E1 E2].
        apply eq_str_true in E1, E2. tauto.
      - destruct (eq_str http_method (py "GET")) eqn:G.
        + apply eq_str_true in G. destruct (Hget G) as (p & Hp & Hs).
          rewrite Hp. unfold bind, lift, py_startswith. rewrite Hs.
          reflexivity.
        + reflexivity. }
    split; [exact H|].
    rewrite lambda_handler_of_route, H. reflexivity.
Qed.

(** DELETE /files is answered 404; POST /files and GET /files/report.pdf
    reach their operations. *)
Lemma dispatch_by_method_and_path_witness :
  lambda_handler Sample.env_ok
    [(py "httpMethod", VStr (py "DELETE")); (py "path", VStr (py "/files"))] []
    = (Return (error_response 404 (py "Not found")), []) /\
  route Sample.env_ok (Sample.post_event (py "{}")) [] =
    handle_upload_preparation Sample.env_ok (Sample.post_event (py "{}")) [] /\
  route Sample.env_ok (Sample.get_event (py "report.pdf")) [] =
    handle_download Sample.env_ok (Sample.get_event (py "report.pdf")) [].
Proof.
  split; [|split].
  - refine (proj2 (proj2 (proj2 (dispatch_by_method_and_path Sample.env_ok
              [(py "httpMethod", VStr (py "DELETE"));
               (py "path", VStr (py "/files"))] [])) _ _)).
    + intros [H _]. discriminate H.
    + intros H. discriminate H.
  - refine (proj1 (dispatch_by_method_and_path Sample.env_ok
                     (Sample.post_event (py "{}")) []) _).
    split; reflexivity.
  - refine (proj1 (proj2 (dispatch_by_method_and_path Sample.env_ok
                            (Sample.get_event (py "report.pdf")) []))
              (py "/files/report.pdf") _).
    repeat split.
Defined.

(** ** The shape of the responses *)

Lemma error_response_shape (status : Z) (msg : pystr) :
  status = 400 \/ status = 404 \/ status = 500 ->
  response_shape (error_response status msg).
Proof.
  intros H. split; [reflexivity|]. right; right.
  split; [exact H|]. split; [reflexivity|]. now exists msg.
Qed.

Lemma upload_response_shape (env : Env) (event : pydict)
    (log : list s3_call) :
  match handle_upload_preparation env event log with
  | (Return r, _) => response_shape r
  | (Raise _, _) => True
  end.
Proof.
  unfold handle_upload_preparation, try_except at 1.
  destruct (json_loads env _ log) as [[v|e] log1].
  - unfold bind, lift.
    destruct (py_get v (py "filename") VNone) as [f|e]; [|exact I].
    destruct (negb (truthy f)); [apply error_response_shape; auto|].
    destruct (py_get v (py "contentType") _) as [ct|e]; [|exact I].
    unfold try_except, s3_generate_presigned_url.
    destruct (generate_presigned_url env _ _ _) as [url|[]];
      try exact I;
      [|unfold bind, lift; destruct (py_print env _) as [[]|e'];
        [apply error_response_shape; auto|exact I]].
    split; [reflexivity|]. left. split; reflexivity.
  - destruct e; try exact I. apply error_response_shape; auto.
Qed.

Lemma download_response_shape (env : Env) (event : pydict)
    (log : list s3_call) :
  match handle_download env event log with
  | (Return r, _) => response_shape r
  | (Raise _, _) => True
  end.
Proof.
  unfold handle_download, bind at 1, lift at 1.
  destruct (py_get _ (py "objectKey") VNone) as [k|e]; [|exact I].
  destruct (negb (truthy k)); [apply error_response_shape; auto|].
  unfold bind, lift.
  destruct (py_unquote k) as [key|e]; [|exact I].
  unfold try_except at 1, s3_head_object.
  destruct (head_object env _ _) as [r|e].
  - unfold try_except, s3_generate_presigned_url.
    destruct (generate_presigned_url env _ _ _) as [url|[]];
      try exact I;
      [|unfold bind, lift; destruct (py_print env _) as [[]|e'];
        [apply error_response_shape; auto|exact I]].
    split; [reflexivity|]. right; left. split; [reflexivity|]. now exists url.
  - destruct e as [m|code m|m|m|m]; try exact I.
    destruct (str_eqb code (py "404")); [apply error_response_shape; auto|exact I].
Qed.

Lemma route_response_shape (env : Env) (event : pydict)
    (log : list s3_call) :
  match route env event log with
  | (Return r, _) => response_shape r
  | (Raise _, _) => True
  end.
Proof.
  unfold route, dispatch.
  destruct (eq_str _ (py "POST") && eq_str _ (py "/files")).
  - apply upload_response_shape.
  - unfold bind.
    destruct (eq_str _ (py "GET")).
    + unfold lift. destruct (py_startswith _ _) as [[|]|e]; try exact I.
      * apply download_response_shape.
      * apply error_response_shape; auto.
    + unfold ret. apply error_response_shape; auto.
Qed.

(** C9.  Every response of the handler carries the header
    [Content-Type: application/json]; its status is 200, 307, 400, 404 or
    500; the 307 carries [Location] beside the content type; and the body
    of every error response (400, 404, 500) is [{"error": msg}] for a string
    [msg]. *)
Theorem responses_are_json (env : Env) (event : pydict)
    (log : list s3_call) :
  exists resp log',
    lambda_handler env event log = (Return resp, log') /\
    header (headers resp) (py "Content-Type") = Some (py "application/json") /\
    ((statusCode resp = 200 /\ headers resp = json_headers) \/
     (statusCode resp = 307 /\
      exists url, headers resp = [(py "Location", url);
                                  (py "Content-Type", py "application/json")]) \/
     ((statusCode resp = 400 \/ statusCode resp = 404 \/ statusCode resp = 500)
      /\ headers resp = json_headers
      /\ exists msg, body resp = json_dumps (VDict [(py "error", VStr msg)]))).
Proof.
  rewrite lambda_handler_of_route.
  pose proof (route_response_shape env event log) as H.
  destruct (route env event log) as [[r|e] log'].
  - exists r, log'. split; [reflexivity|]. exact H.
  - exists (error_response 500 (str_exn e)), log'. split; [reflexivity|].
    apply error_response_shape. auto.
Qed.

(** ** The reference decoder *)

Lemma skip_ws_length (s : pystr) :
  (List.length (Json.skip_ws s) <= List.length s)%nat.
Proof.
  induction s as [|c s IH]; simpl; [lia|].
  destruct (Json.is_ws c); simpl; lia.
Qed.

Lemma scanstring_rest (s acc : pystr) :
  Json.scanstring s acc <> Json.PFuel /\
  forall k rest, Json.scanstring s acc = Json.POk k rest ->
                 (List.length rest < List.length s)%nat.
Proof.
  functional induction (Json.scanstring s acc);
    repeat match goal with
           | H : _ :: _ = _ :: _ |- _ => rewrite H in *; clear H
           end;
    try (split; [discriminate | intros ? ? [=]; subst; cbn [List.length]; lia]);
    (destruct IHp as [IH1 IH2]; split;
     [exact IH1
     |intros k rest H; specialize (IH2 k rest H); cbn [List.length] in *; lia]).
Qed.

Lemma span_digits_rest (s : pystr) :
  (List.length (snd (Json.span_digits s)) <= List.length s)%nat.
Proof.
  induction s as [|c s IH]; simpl; [lia|].
  destruct (Json.is_digit c); [|simpl; lia].
  destruct (Json.span_digits s) as [ds r]. simpl in *. lia.
Qed.

Lemma match_number_rest (s : pystr) (v : value) (rest : pystr) :
  Json.match_number s = Some (v, rest) ->
  (List.length rest < List.length s)%nat.
Proof.
  unfold Json.match_number.
  set (p := match s with
            | c :: t => if c =? 45 then (true, t) else (false, s)
            | [] => (false, s)
            end).
  assert (Hp : (List.length (snd p) <= List.length s)%nat).
  { subst p. destruct s as [|c t]; simpl; [lia|].
    destruct (c =? 45); simpl; lia. }
  destruct p as [neg s1]. cbn [snd] in Hp.
  destruct (Json.int_part s1) as [[ip s2]|] eqn:Hi; [|discriminate].
  assert (H2 : (List.length s2 < List.length s1)%nat).
  { unfold Json.int_part in Hi. destruct s1 as [|c s1']; [discriminate|].
    destruct (c =? 48); [injection Hi as <- <-; simpl; lia|].
    destruct (Json.is_digit c); [|discriminate].
    pose proof (span_digits_rest s1') as Hs.
    destruct (Json.span_digits s1') as [ds r]. injection Hi as <- <-.
    simpl in *. lia. }
  set (q := match Json.frac_part s2 with
            | Some (ds, r) => (Some ds, r)
            | None => (None, s2)
            end).
  assert (H3 : (List.length (snd q) <= List.length s2)%nat).
  { subst q. unfold Json.frac_part.
    destruct s2 as [|dot [|d s2']]; simpl; try lia.
    destruct ((dot =? 46) && Json.is_digit d); [|simpl; lia].
    pose proof (span_digits_rest s2') as Hs.
    destruct (Json.span_digits s2') as [ds r]. simpl in *. lia. }
  destruct q as [fp s3]. cbn [snd] in H3.
  set (x := match Json.exp_part s3 with
            | Some (x, r) => (Some x, r)
            | None => (None, s3)
            end).
  assert (H4 : (List.length (snd x) <= List.length s3)%nat).
  { subst x. unfold Json.exp_part.
    destruct s3 as [|e s3']; simpl; [lia|].
    destruct ((e =? 101) || (e =? 69)); [|simpl; lia].
    set (y := match s3' with
              | sg :: t =>
                  if sg =? 45 then (true, t)
                  else if sg =? 43 then (false, t) else (false, s3')
              | [] => (false, s3')
              end).
    assert (Hy : (List.length (snd y) <= List.length s3')%nat).
    { subst y. destruct s3' as [|sg t]; simpl; [lia|].
      destruct (sg =? 45); simpl; [lia|]. destruct (sg =? 43); simpl; lia. }
    destruct y as [neg' s'']. cbn [snd] in Hy.
    pose proof (span_digits_rest s'') as Hs.
    destruct (Json.span_digits s'') as [[|d ds] r]; simpl in *; lia. }
  destruct x as [ep s4]. cbn [snd] in H4.
  destruct fp, ep; intros [= <- <-]; lia.
Qed.

Lemma keyword_rest (name : pystr) (v v' : value) (s rest : pystr) :
  name <> [] ->
  Json.keyword name v s = Some (v', rest) ->
  (List.length rest < List.length s)%nat.
Proof.
  unfold Json.keyword. intros Hn.
  destruct name as [|y name]; [contradiction|].
  destruct s as [|c s]; [discriminate|].
  destruct (startswith (c :: s) (y :: name)); [|discriminate].
  intros [= _ <-]. cbn [List.length skipn]. rewrite length_skipn. lia.
Qed.

Lemma constant_rest (s : pystr) (v : value) (rest : pystr) :
  Json.constant s = Some (v, rest) ->
  (List.length rest < List.length s)%nat.
Proof.
  unfold Json.constant.
  repeat match goal with
         | |- context [Json.keyword ?n ?w s] =>
             let E := fresh "E" in
             destruct (Json.keyword n w s) as [[? ?]|] eqn:E;
             [intros [= <- <-];
              apply (keyword_rest n w _ _ _ ltac:(discriminate) E)|]
         end.
  discriminate.
Qed.

(** With more than twice the length of the text as fuel, the scanner does
    not run out of it, whatever the depth it is given, and each of its
    three loops consumes a character. *)
Lemma scan_fuel (fuel : nat) :
  (forall depth s, (2 * List.length s < fuel)%nat ->
     Json.scan_once fuel depth s <> Json.PFuel) /\
  (forall depth s acc, (2 * List.length s + 1 < fuel)%nat ->
     Json.array_items fuel depth s acc <> Json.PFuel) /\
  (forall depth s acc, (2 * List.length s + 1 < fuel)%nat ->
     Json.object_members fuel depth s acc <> Json.PFuel) /\
  (forall depth s v rest, Json.scan_once fuel depth s = Json.POk v rest ->
     (List.length rest < List.length s)%nat) /\
  (forall depth s acc v rest,
     Json.array_items fuel depth s acc = Json.POk v rest ->
     (List.length rest < List.length s)%nat) /\
  (forall depth s acc v rest,
     Json.object_members fuel depth s acc = Json.POk v rest ->
     (List.length rest < List.length s)%nat).
Proof.
  induction fuel as [|f (IHs & IHa & IHo & IHsl & IHal & IHol)].
  - repeat split; intros; try lia; discriminate.
  - assert (Hsl : forall depth s v rest,
                    Json.scan_once (S f) depth s = Json.POk v rest ->
                    (List.length rest < List.length s)%nat).
    { intros depth [|c r] v rest; cbn [Json.scan_once]; [discriminate|].
      destruct (c =? 34).
      { pose proof (scanstring_rest r []) as [_ Hr].
        destruct (Json.scanstring r []) as [k rest'| | |]; try discriminate.
        intros [= <- <-]. specialize (Hr _ _ eq_refl). cbn [List.length]. lia. }
      destruct (c =? 123).
      { destruct depth as [|d]; [discriminate|].
        pose proof (skip_ws_length r) as Hw.
        destruct (Json.skip_ws r) as [|c' r'].
        - intros H. apply IHol in H. cbn [List.length] in *. lia.
        - destruct (c' =? 125).
          + intros [= <- <-]. cbn [List.length] in *. lia.
          + intros H. apply IHol in H. cbn [List.length] in *. lia. }
      destruct (c =? 91).
      { destruct depth as [|d]; [discriminate|].
        pose proof (skip_ws_length r) as Hw.
        destruct (Json.skip_ws r) as [|c' r'].
        - intros H. apply IHal in H. cbn [List.length] in *. lia.
        - destruct (c' =? 93).
          + intros [= <- <-]. cbn [List.length] in *. lia.
          + intros H. apply IHal in H. cbn [List.length] in *. lia. }
      destruct (Json.constant (c :: r)) as [[v' rest']|] eqn:E.
      { intros [= <- <-]. exact (constant_rest _ _ _ E). }
      destruct (Json.match_number (c :: r)) as [[v' rest']|] eqn:E'.
      { destruct (Json.int_limit v'); [discriminate|].
        intros [= <- <-]. exact (match_number_rest _ _ _ E'). }
      discriminate. }
    assert (Hal : forall depth s acc v rest,
                    Json.array_items (S f) depth s acc = Json.POk v rest ->
                    (List.length rest < List.length s)%nat).
    { intros depth s acc v rest. cbn [Json.array_items].
      destruct (Json.scan_once f depth s) as [x r0| | |] eqn:E;
        try discriminate.
      apply IHsl in E. pose proof (skip_ws_length r0) as Hw.
      destruct (Json.skip_ws r0) as [|c r]; [discriminate|].
      destruct (c =? 93); [intros [= <- <-]; cbn [List.length] in *; lia|].
      destruct (c =? 44); [|discriminate].
      intros H. apply IHal in H. pose proof (skip_ws_length r).
      cbn [List.length] in *. lia. }
    assert (Hol : forall depth s acc v rest,
                    Json.object_members (S f) depth s acc = Json.POk v rest ->
                    (List.length rest < List.length s)%nat).
    { intros depth [|q r] acc v rest; cbn [Json.object_members];
        [discriminate|].
      destruct (q =? 34); [|discriminate].
      pose proof (scanstring_rest r []) as [_ Hr].
      destruct (Json.scanstring r []) as [key r0| | |]; try discriminate.
      specialize (Hr _ _ eq_refl). pose proof (skip_ws_length r0) as Hw.
      destruct (Json.skip_ws r0) as [|colon r1]; [discriminate|].
      destruct (colon =? 58); [|discriminate].
      pose proof (skip_ws_length r1) as Hw1.
      destruct (Json.scan_once f depth (Json.skip_ws r1)) as [x r2| | |] eqn:E;
        try discriminate.
      apply IHsl in E. pose proof (skip_ws_length r2) as Hw2.
      destruct (Json.skip_ws r2) as [|c r3]; [discriminate|].
      destruct (c =? 125); [intros [= <- <-]; cbn [List.length] in *; lia|].
      destruct (c =? 44); [|discriminate].
      intros H. apply IHol in H. pose proof (skip_ws_length r3).
      cbn [List.length] in *. lia. }
    repeat split; try assumption.
    + intros depth [|c r] Hf; cbn [Json.scan_once]; [discriminate|].
      cbn [List.length] in Hf.
      destruct (c =? 34).
      { pose proof (scanstring_rest r []) as [Hr _].
        destruct (Json.scanstring r []); try discriminate. contradiction. }
      destruct (c =? 123).
      { destruct depth as [|d]; [discriminate|].
        pose proof (skip_ws_length r) as Hw.
        destruct (Json.skip_ws r) as [|c' r'].
        - apply IHo. cbn [List.length]. lia.
        - destruct (c' =? 125); [discriminate|].
          apply IHo. cbn [List.length] in *. lia. }
      destruct (c =? 91).
      { destruct depth as [|d]; [discriminate|].
        pose proof (skip_ws_length r) as Hw.
        destruct (Json.skip_ws r) as [|c' r'].
        - apply IHa. cbn [List.length]. lia.
        - destruct (c' =? 93); [discriminate|].
          apply IHa. cbn [List.length] in *. lia. }
      destruct (Json.constant (c :: r)) as [[v' rest']|]; [discriminate|].
      destruct (Json.match_number (c :: r)) as [[v' rest']|];
        [destruct (Json.int_limit v')|]; discriminate.
    + intros depth s acc Hf. cbn [Json.array_items].
      pose proof (IHs depth s ltac:(lia)) as Hs.
      destruct (Json.scan_once f depth s) as [x r0| | |] eqn:E;
        try discriminate; [|contradiction].
      apply IHsl in E. pose proof (skip_ws_length r0) as Hw.
      destruct (Json.skip_ws r0) as [|c r]; [discriminate|].
      destruct (c =? 93); [discriminate|].
      destruct (c =? 44); [|discriminate].
      apply IHa. pose proof (skip_ws_length r). cbn [List.length] in *. lia.
    + intros depth [|q r] acc Hf; cbn [Json.object_members]; [discriminate|].
      cbn [List.length] in Hf.
      destruct (q =? 34); [|discriminate].
      pose proof (scanstring_rest r []) as [Hr0 Hr].
      destruct (Json.scanstring r []) as [key r0| | |];
        try discriminate; [|contradiction].
      specialize (Hr _ _ eq_refl). pose proof (skip_ws_length r0) as Hw.
      destruct (Json.skip_ws r0) as [|colon r1]; [discriminate|].
      destruct (colon =? 58); [|discriminate].
      pose proof (skip_ws_length r1) as Hw1.
      pose proof (IHs depth (Json.skip_ws r1)) as Hs.
      destruct (Json.scan_once f depth (Json.skip_ws r1)) as [x r2| | |] eqn:E;
        try discriminate.
      * apply IHsl in E. pose proof (skip_ws_length r2) as Hw2.
        destruct (Json.skip_ws r2) as [|c r3]; [discriminate|].
        destruct (c =? 125); [discriminate|].
        destruct (c =? 44); [|discriminate].
        apply IHo. pose proof (skip_ws_length r3).
        cbn [List.length] in *. lia.
      * apply Hs. cbn [List.length] in *. lia.
Qed.

(** The reference decoder returns a value, raises [JSONDecodeError], or
    raises at one of the two limits that its scanner has met. *)
Lemma decode_outcome (depth : nat) (s : pystr) :
  (exists v, Json.decode_within depth s = Return v) \/
  (exists msg, Json.decode_within depth s = Raise (JSONDecodeError msg)) \/
  (exists msg,
     Json.scan_once (S (2 * List.length s)) depth (Json.skip_ws s)
       = Json.PLimit msg /\
     Json.decode_within depth s = Raise (Fault msg)).
Proof.
  unfold Json.decode_within.
  destruct (startswith s [65279]); [right; left; eauto|].
  pose proof (proj1 (scan_fuel (S (2 * List.length s))) depth (Json.skip_ws s))
    as H.
  pose proof (skip_ws_length s) as Hw.
  destruct (Json.scan_once _ depth (Json.skip_ws s)) as [v rest|m|m|].
  - destruct (Json.skip_ws rest); [left|right; left]; eauto.
  - right; left; eauto.
  - right; right; eauto.
  - exfalso. apply H; [lia|reflexivity].
Qed.

(** ** The text of the bodies *)

(** The body of an error response is the text [{"error": "msg"}], with the
    message escaped as [json.dumps] escapes a string. *)
Lemma error_body_text (status : Z) (msg : pystr) :
  body (error_response status msg) =
    [123; 34] ++ py "error" ++ [34] ++ py ": " ++ encode_str msg ++ [125].
Proof. reflexivity. Qed.

Example not_found_body :
  body (error_response 404 (py "Not found")) =
    [123; 34] ++ py "error" ++ [34] ++ py ": " ++ [34] ++ py "Not found"
      ++ [34; 125].
Proof. reflexivity. Qed.

Example download_body_text :
  download_body =
    [123; 34] ++ py "message" ++ [34] ++ py ": " ++ [34]
      ++ py "Redirecting to download URL" ++ [34] ++ py ", " ++ [34]
      ++ py "expiresIn" ++ [34] ++ py ": 3600}".
Proof. reflexivity. Qed.

(** * Further properties of the handler *)

(** ** The branches that turn a failure into a response *)

(** X1.  When the presign call of upload preparation raises [e], on a body
    that parses to an object with a non-empty [filename] of any type
    (lines 66-82): a [ClientError] is printed and, when the [print]
    returns, answered 500 with the body
    [{"error": "Failed to generate upload URL"}]; when the [print] raises,
    its exception leaves [handle_upload_preparation] in place of the
    answer; any other [e] leaves it as it is.  The presign call is the only
    call made.  The handler, once line 16 has written the event, returns
    the 500 of the operation, and answers an exception that has left the
    operation with 500 and its text when line 33 prints it. *)
Theorem upload_presign_failure (env : Env) (event : pydict)
    (log : list s3_call) (s : pystr) (d : pydict) (filename : value)
    (e : exn) :
  post_files event ->
  dict_get event (py "body") = Some (VStr s) ->
  json_decode env s = Return (VDict d) ->
  dict_get d (py "filename") = Some filename ->
  truthy filename = true ->
  let content_type :=
    dict_get_default d (py "contentType")
      (VStr (py "application/octet-stream")) in
  let params :=
    [(py "Bucket", BUCKET_NAME env); (py "Key", filename);
     (py "ContentType", content_type)] in
  generate_presigned_url env (py "put_object") params 900 = Raise e ->
  let log' := log ++ [GeneratePresignedUrl (py "put_object") params 900] in
  let line := py "Error generating pre-signed URL: " ++ str_exn e in
  let generic :=
    mkResponse 500 json_headers
      (json_dumps
         (VDict [(py "error", VStr (py "Failed to generate upload URL"))])) in
  let raw (x : exn) :=
    mkResponse 500 json_headers
      (json_dumps (VDict [(py "error", VStr (str_exn x))])) in
  handle_upload_preparation env event log =
    (if is_client_error e then
       match py_print env line with
       | Return _ => Return generic
       | Raise e' => Raise e'
       end
     else Raise e, log') /\
  (entry_logged env (VDict event) ->
   is_client_error e = true ->
   py_print env line = Return tt ->
   lambda_handler_logged env (VDict event) log = (Return generic, log')) /\
  (entry_logged env (VDict event) ->
   is_client_error e = true ->
   forall e', py_print env line = Raise e' ->
   py_print env (py "Error: " ++ str_exn e') = Return tt ->
   lambda_handler_logged env (VDict event) log = (Return (raw e'), log')) /\
  (entry_logged env (VDict event) ->
   is_client_error e = false ->
   py_print env (py "Error: " ++ str_exn e) = Return tt ->
   lambda_handler_logged env (VDict event) log = (Return (raw e), log')).
Proof.
  intros Hreq Hb Hd Hf Ht content_type params Hurl log' line generic raw.
  assert (H : handle_upload_preparation env event log =
              (presign_failure env (py "Failed to generate upload URL") e,
               log')).
  { rewrite (upload_after_parse env event log s (VDict d) Hb Hd).
    unfold py_get. rewrite (dict_get_default_some _ _ _ _ Hf), Ht.
    cbn [negb]. fold content_type. cbv zeta. unfold put_params. fold params.
    rewrite Hurl. reflexivity. }
  split; [exact H|].
  assert (L : entry_logged env (VDict event) ->
              lambda_handler_logged env (VDict event) log =
                match presign_failure env
                        (py "Failed to generate upload URL") e with
                | Return r => (Return r, log')
                | Raise x =>
                    match py_print env (error_line x) with
                    | Return _ => (Return (error_response 500 (str_exn x)), log')
                    | Raise x' => (Raise x', log')
                    end
                end).
  { intros He.
    rewrite (lambda_handler_logged_of_route env event log He),
      (route_post_files env event Hreq), H. reflexivity. }
  unfold presign_failure, presign_error_line, error_line in L. fold line in L.
  repeat split.
  - intros He Hc Hp. rewrite (L He), Hc, Hp. reflexivity.
  - intros He Hc e' Hp Hp'. rewrite (L He), Hc, Hp, Hp'. reflexivity.
  - intros He Hc Hp. rewrite (L He), Hc, Hp. reflexivity.
Qed.

(** A presign call that raises a [ClientError], one whose [ClientError]
    carries text that the output stream cannot encode, and one that raises
    for want of credentials. *)
Lemma upload_presign_failure_witness :
  lambda_handler_logged Sample.env_refused
    (VDict (Sample.post_event Sample.report_body)) []
    = (Return (error_response 500 (py "Failed to generate upload URL")),
       [GeneratePresignedUrl (py "put_object")
          (put_params Sample.bucket (VStr (py "report.pdf"))
             (VStr (py "application/pdf"))) 900]) /\
  lambda_handler_logged Sample.env_garbled_presign
    (VDict (Sample.post_event Sample.report_body)) []
    = (Return (error_response 500
                 (py "'utf-8' codec can't encode character '\ud800' in position 44: surrogates not allowed")),
       [GeneratePresignedUrl (py "put_object")
          (put_params Sample.bucket (VStr (py "report.pdf"))
             (VStr (py "application/pdf"))) 900]) /\
  lambda_handler_logged Sample.env_no_credentials
    (VDict (Sample.post_event Sample.report_body)) []
    = (Return (error_response 500 (py "Unable to locate credentials")),
       [GeneratePresignedUrl (py "put_object")
          (put_params Sample.bucket (VStr (py "report.pdf"))
             (VStr (py "application/pdf"))) 900]).
Proof.
  assert (Hreq : post_files (Sample.post_event Sample.report_body))
    by (split; reflexivity).
  assert (Hd : Json.decode Sample.report_body =
               Return (VDict [(py "filename", VStr (py "report.pdf"));
                              (py "contentType", VStr (py "application/pdf"))]))
    by (vm_compute; reflexivity).
  assert (He : forall env, dumps_fault env = Sample.limits ->
                 py_print env = utf8_print ->
                 entry_logged env
                   (VDict (Sample.post_event Sample.report_body))).
  { intros env H1 H2. unfold entry_logged. rewrite H1, H2.
    split; vm_compute; reflexivity. }
  split; [|split].
  - refine (proj1 (proj2 (upload_presign_failure Sample.env_refused _ [] _ _ _ _
                            Hreq eq_refl Hd eq_refl eq_refl eq_refl)) _ _ _).
    + apply He; reflexivity.
    + reflexivity.
    + vm_compute. reflexivity.
  - refine (proj1 (proj2 (proj2 (upload_presign_failure
                            Sample.env_garbled_presign _ [] _ _ _ _
                            Hreq eq_refl Hd eq_refl eq_refl eq_refl)))
              _ _
              (Fault (py "'utf-8' codec can't encode character '\ud800' in position 44: surrogates not allowed"))
              _ _).
    + apply He; reflexivity.
    + reflexivity.
    + vm_compute. reflexivity.
    + vm_compute. reflexivity.
  - refine (proj2 (proj2 (proj2 (upload_presign_failure
                            Sample.env_no_credentials _ [] _ _ _ _
                            Hreq eq_refl Hd eq_refl eq_refl eq_refl))) _ _ _).
    + apply He; reflexivity.
    + reflexivity.
    + vm_compute. reflexivity.
Defined.

(** X2.  A GET under /files/ whose [objectKey] path parameter is absent or empty
    (also when the event has no [pathParameters] key) is answered 400 with
    the body [{"error": "objectKey is required"}] before any call to the
    store (lines 101-109). *)
Theorem download_key_required (env : Env) (event : pydict)
    (log : list s3_call) :
  get_files event ->
  object_key_missing event ->
  let resp :=
    mkResponse 400 json_headers
      (json_dumps (VDict [(py "error", VStr (py "objectKey is required"))])) in
  handle_download env event log = (Return resp, log) /\
  lambda_handler env event log = (Return resp, log).
Proof.
  intros Hreq (pp & Hpp & Hk) resp.
  assert (H : handle_download env event log = (Return resp, log)).
  { unfold handle_download. rewrite Hpp.
    unfold bind at 1, lift at 1, py_get, dict_get_default.
    destruct (dict_get pp (py "objectKey")) as [k|].
    - rewrite Hk. reflexivity.
    - reflexivity. }
  split; [exact H|].
  rewrite lambda_handler_of_route, (route_get_files env event log Hreq), H.
  reflexivity.
Qed.

Lemma download_key_required_witness :
  lambda_handler Sample.env_ok Sample.get_event_no_parameters [] =
    (Return (error_response 400 (py "objectKey is required")), []) /\
  lambda_handler Sample.env_ok (Sample.get_event []) [] =
    (Return (error_response 400 (py "objectKey is required")), []).
Proof.
  split.
  - refine (proj2 (download_key_required Sample.env_ok
                     Sample.get_event_no_parameters [] _ _)).
    + split; [reflexivity|]. exists (py "/files/"). split; reflexivity.
    + exists []. split; [reflexivity|exact I].
  - refine (proj2 (download_key_required Sample.env_ok
                     (Sample.get_event []) [] _ _)).
    + split; [reflexivity|]. exists (py "/files/"). split; reflexivity.
    + exists [(py "objectKey", VStr [])]. split; reflexivity.
Defined.

(** X3.  When the object exists and the presign call of download raises
    [e] (lines 128-143): a [ClientError] is printed and, when the [print]
    returns, answered 500 with the body
    [{"error": "Failed to generate download URL"}]; when the [print]
    raises, its exception leaves [handle_download] in place of the answer;
    any other [e] leaves it as it is.  Both calls have been made.  The
    handler, once line 16 has written the event, returns the 500 of the
    operation, and answers an exception that has left the operation with
    500 and its text when line 33 prints it. *)
Theorem download_presign_failure (env : Env) (event : pydict)
    (log : list s3_call) (k : pystr) (r : value) (e : exn) :
  get_files event ->
  object_key_is event k ->
  k <> [] ->
  let bucket := BUCKET_NAME env in
  let key := VStr (unquote k) in
  let params := [(py "Bucket", bucket); (py "Key", key)] in
  head_object env bucket key = Return r ->
  generate_presigned_url env (py "get_object") params 3600 = Raise e ->
  let log' :=
    log ++ [HeadObject bucket key;
            GeneratePresignedUrl (py "get_object") params 3600] in
  let line := py "Error generating pre-signed URL: " ++ str_exn e in
  let generic :=
    mkResponse 500 json_headers
      (json_dumps
         (VDict [(py "error", VStr (py "Failed to generate download URL"))])) in
  let raw (x : exn) :=
    mkResponse 500 json_headers
      (json_dumps (VDict [(py "error", VStr (str_exn x))])) in
  handle_download env event log =
    (if is_client_error e then
       match py_print env line with
       | Return _ => Return generic
       | Raise e' => Raise e'
       end
     else Raise e, log') /\
  (entry_logged env (VDict event) ->
   is_client_error e = true ->
   py_print env line = Return tt ->
   lambda_handler_logged env (VDict event) log = (Return generic, log')) /\
  (entry_logged env (VDict event) ->
   is_client_error e = true ->
   forall e', py_print env line = Raise e' ->
   py_print env (py "Error: " ++ str_exn e') = Return tt ->
   lambda_handler_logged env (VDict event) log = (Return (raw e'), log')) /\
  (entry_logged env (VDict event) ->
   is_client_error e = false ->
   py_print env (py "Error: " ++ str_exn e) = Return tt ->
   lambda_handler_logged env (VDict event) log = (Return (raw e), log')).
Proof.
  intros Hreq Hk Hne bucket key params Hhead Hurl log' line generic raw.
  assert (H : handle_download env event log =
              (presign_failure env (py "Failed to generate download URL") e,
               log')).
  { rewrite (download_after_key env event log k Hk Hne).
    fold bucket. fold key. unfold get_params. fold params.
    rewrite Hhead, Hurl. unfold log'.
    change [HeadObject bucket key;
            GeneratePresignedUrl (py "get_object") params 3600]
      with ([HeadObject bucket key]
              ++ [GeneratePresignedUrl (py "get_object") params 3600]).
    rewrite app_assoc. reflexivity. }
  split; [exact H|].
  assert (L : entry_logged env (VDict event) ->
              lambda_handler_logged env (VDict event) log =
                match presign_failure env
                        (py "Failed to generate download URL") e with
                | Return r => (Return r, log')
                | Raise x =>
                    match py_print env (error_line x) with
                    | Return _ => (Return (error_response 500 (str_exn x)), log')
                    | Raise x' => (Raise x', log')
                    end
                end).
  { intros He.
    rewrite (lambda_handler_logged_of_route env event log He),
      (route_get_files env event log Hreq), H. reflexivity. }
  unfold presign_failure, presign_error_line, error_line in L. fold line in L.
  repeat split.
  - intros He Hc Hp. rewrite (L He), Hc, Hp. reflexivity.
  - intros He Hc e' Hp Hp'. rewrite (L He), Hc, Hp, Hp'. reflexivity.
  - intros He Hc Hp. rewrite (L He), Hc, Hp. reflexivity.
Qed.

Lemma download_presign_failure_witness :
  lambda_handler_logged Sample.env_refused
    (VDict (Sample.get_event (py "report.pdf"))) []
    = (Return (error_response 500 (py "Failed to generate download URL")),
       [HeadObject Sample.bucket (VStr (py "report.pdf"));
        GeneratePresignedUrl (py "get_object")
          (get_params Sample.bucket (VStr (py "report.pdf"))) 3600]) /\
  lambda_handler_logged Sample.env_garbled_presign
    (VDict (Sample.get_event (py "report.pdf"))) []
    = (Return (error_response 500
                 (py "'utf-8' codec can't encode character '\ud800' in position 44: surrogates not allowed")),
       [HeadObject Sample.bucket (VStr (py "report.pdf"));
        GeneratePresignedUrl (py "get_object")
          (get_params Sample.bucket (VStr (py "report.pdf"))) 3600]) /\
  lambda_handler_logged Sample.env_no_credentials
    (VDict (Sample.get_event (py "report.pdf"))) []
    = (Return (error_response 500 (py "Unable to locate credentials")),
       [HeadObject Sample.bucket (VStr (py "report.pdf"));
        GeneratePresignedUrl (py "get_object")
          (get_params Sample.bucket (VStr (py "report.pdf"))) 3600]).
Proof.
  assert (Hreq : get_files (Sample.get_event (py "report.pdf"))).
  { split; [reflexivity|]. exists (py "/files/report.pdf"). split; reflexivity. }
  assert (Hk : object_key_is (Sample.get_event (py "report.pdf"))
                 (py "report.pdf")).
  { exists [(py "objectKey", VStr (py "report.pdf"))]. split; reflexivity. }
  assert (Hne : py "report.pdf" <> []) by discriminate.
  assert (He : forall env, dumps_fault env = Sample.limits ->
                 py_print env = utf8_print ->
                 entry_logged env (VDict (Sample.get_event (py "report.pdf")))).
  { intros env H1 H2. unfold entry_logged. rewrite H1, H2.
    split; vm_compute; reflexivity. }
  split; [|split].
  - refine (proj1 (proj2 (download_presign_failure Sample.env_refused _ [] _
                            (VDict []) _ Hreq Hk Hne eq_refl eq_refl)) _ _ _).
    + apply He; reflexivity.
    + reflexivity.
    + vm_compute. reflexivity.
  - refine (proj1 (proj2 (proj2 (download_presign_failure
                            Sample.env_garbled_presign _ [] _
                            (VDict []) _ Hreq Hk Hne eq_refl eq_refl)))
              _ _
              (Fault (py "'utf-8' codec can't encode character '\ud800' in position 44: surrogates not allowed"))
              _ _).
    + apply He; reflexivity.
    + reflexivity.
    + vm_compute. reflexivity.
    + vm_compute. reflexivity.
  - refine (proj2 (proj2 (proj2 (download_presign_failure
                            Sample.env_no_credentials _ [] _
                            (VDict []) _ Hreq Hk Hne eq_refl eq_refl))) _ _ _).
    + apply He; reflexivity.
    + reflexivity.
    + vm_compute. reflexivity.
Defined.

(** ** Inputs of another type

    The handler does not test the types of what it reads from the event.
    An attribute or a call that the value does not support raises, and the
    outer [except] answers 500 with the text of the exception. *)









(** ** The runs of the handler *)

Lemma unquote_to_bytes_nonempty (s : list Z) :
  s <> [] -> unquote_to_bytes s <> [].
Proof.
  destruct s as [|c rest]; [contradiction|]. intros _. cbn [unquote_to_bytes].
  destruct (c =? 37); [|discriminate].
  destruct rest as [|h1 [|h2 rest']]; try discriminate.
  destruct (hexval h1), (hexval h2); discriminate.
Qed.

Lemma utf8_decode_nonempty (bs : list Z) : bs <> [] -> utf8_decode bs <> [].
Proof.
  destruct bs as [|b r1]; [contradiction|]. intros _. cbn [utf8_decode].
  repeat match goal with
         | |- (if ?c then _ else _) <> [] => destruct c
         | |- match ?l with [] => _ | _ :: _ => _ end <> [] => destruct l
         end; discriminate.
Qed.

Lemma unquote_parts_nonempty (s run : pystr) :
  unquote_parts s run = [] -> s = [] /\ run = [].
Proof.
  revert run. induction s as [|c s IH]; intros run; cbn [unquote_parts].
  - intros H. split; [reflexivity|].
    destruct run as [|x run]; [reflexivity|]. exfalso.
    revert H. apply utf8_decode_nonempty, unquote_to_bytes_nonempty.
    intros E. apply (f_equal (@List.length Z)) in E.
    rewrite length_rev in E. discriminate.
  - destruct ((0 <=? c) && (c <=? 127)).
    + intros H. apply IH in H as [_ H]. discriminate.
    + intros H. apply app_eq_nil in H as [_ H]. discriminate.
Qed.

(** Decoding never empties a key: the test of line 104, made before
    [unquote], holds for the decoded key as well. *)
Lemma unquote_nonempty (s : pystr) : s <> [] -> unquote s <> [].
Proof.
  intros Hs. unfold unquote. destruct (negb (contains 37 s)); [exact Hs|].
  intros H. apply unquote_parts_nonempty in H as [H _]. contradiction.
Qed.

(** Every run of the three functions is one of the runs of [run]. *)
Lemma upload_run (env : Env) (event : pydict) (log : list s3_call) :
  exists o calls,
    handle_upload_preparation env event log = (o, log ++ calls) /\
    run env o calls.
Proof.
  unfold handle_upload_preparation.
  set (b := dict_get_default event (py "body") (VStr (py "{}"))).
  assert (Hl : exists o, json_loads env b log = (o, log)).
  { unfold json_loads. destruct b; unfold raise, lift; eauto. }
  destruct Hl as [o Hl]. unfold try_except at 1. rewrite Hl.
  destruct o as [v|e].
  - unfold bind, lift.
    destruct (py_get v (py "filename") VNone) as [f|e].
    + destruct (truthy f) eqn:Ht; cbn [negb].
      * destruct (py_get v (py "contentType") _) as [ct|e].
        -- unfold try_except, s3_generate_presigned_url.
           destruct (generate_presigned_url env (py "put_object") _ 900)
             as [url|e] eqn:Hu.
           ++ exists (Return (upload_ok f url ct)), [put_call env f ct].
              split; [reflexivity|]. now apply run_upload.
           ++ exists (presign_failure env
                        (py "Failed to generate upload URL") e),
                [put_call env f ct].
              split; [|now apply run_upload_failed].
              unfold presign_failure, presign_error_line.
              destruct e; try reflexivity.
              unfold bind, lift. cbn [is_client_error].
              destruct (py_print env _) as [[]|e']; reflexivity.
        -- exists (Raise e), []. rewrite app_nil_r. split; constructor.
      * eexists _, []. rewrite app_nil_r. split; [reflexivity|constructor].
    + exists (Raise e), []. rewrite app_nil_r. split; constructor.
  - destruct e; eexists _, []; rewrite app_nil_r;
      (split; [reflexivity|constructor]).
Qed.

Lemma download_run (env : Env) (event : pydict) (log : list s3_call) :
  exists o calls,
    handle_download env event log = (o, log ++ calls) /\ run env o calls.
Proof.
  unfold handle_download, bind at 1, lift at 1.
  destruct (py_get _ (py "objectKey") VNone) as [k|e].
  - destruct (truthy k) eqn:Ht; cbn [negb].
    + unfold bind, lift. destruct (py_unquote k) as [key|e] eqn:Hq.
      * assert (Hne : key <> []).
        { destruct k as [| | | |s|l|d]; cbn [py_unquote] in Hq;
            try discriminate Hq.
          - injection Hq as <-. apply unquote_nonempty.
            destruct s; [discriminate Ht|discriminate].
          - destruct (existsb _ l); discriminate Hq.
          - destruct (existsb _ d); discriminate Hq. }
        unfold try_except at 1, s3_head_object.
        destruct (head_object env (BUCKET_NAME env) (VStr key))
          as [r|e] eqn:Hh.
        -- unfold try_except, s3_generate_presigned_url.
           destruct (generate_presigned_url env (py "get_object") _ 3600)
             as [url|e] eqn:Hu.
           ++ exists (Return (download_redirect url)),
                [head_call env key; get_call env key].
              split; [now rewrite <- app_assoc|]. now apply run_download with r.
           ++ exists (presign_failure env
                        (py "Failed to generate download URL") e),
                [head_call env key; get_call env key].
              split; [|now apply run_download_failed with r].
              rewrite <- app_assoc.
              unfold presign_failure, presign_error_line.
              destruct e; try reflexivity.
              unfold bind, lift. cbn [is_client_error].
              destruct (py_print env _) as [[]|e']; reflexivity.
        -- exists (if not_found_error e
                   then Return (error_response 404 (py "File not found"))
                   else Raise e), [head_call env key].
           split; [|now apply run_head_failed].
           destruct e as [m|code m|m|m|m]; try reflexivity.
           cbn [not_found_error]. destruct (str_eqb code (py "404"));
             reflexivity.
      * exists (Raise e), []. rewrite app_nil_r. split; constructor.
    + eexists _, []. rewrite app_nil_r. split; [reflexivity|constructor].
  - exists (Raise e), []. rewrite app_nil_r. split; constructor.
Qed.

Lemma route_run (env : Env) (event : pydict) (log : list s3_call) :
  exists o calls, route env event log = (o, log ++ calls) /\ run env o calls.
Proof.
  unfold route, dispatch.
  destruct (eq_str _ (py "POST") && eq_str _ (py "/files")).
  - apply upload_run.
  - unfold bind. destruct (eq_str _ (py "GET")).
    + unfold lift. destruct (py_startswith _ _) as [[|]|e].
      * apply download_run.
      * eexists _, []. rewrite app_nil_r. split; [reflexivity|constructor].
      * exists (Raise e), []. rewrite app_nil_r. split; constructor.
    + eexists _, []. rewrite app_nil_r. split; [reflexivity|constructor].
Qed.

(** The response and the calls of [lambda_handler], from the run of its
    [try] body. *)
Lemma lambda_handler_run (env : Env) (event : pydict) (log : list s3_call) :
  exists o calls,
    run env o calls /\
    lambda_handler env event log =
      (Return match o with
              | Return r => r
              | Raise e => error_response 500 (str_exn e)
              end, log ++ calls).
Proof.
  destruct (route_run env event log) as (o & calls & H & Hr).
  exists o, calls. split; [exact Hr|].
  rewrite lambda_handler_of_route, H. destruct o; reflexivity.
Qed.

(** ** What the handler asks of the store *)

(** X8.  Whatever the event, the handler makes no call, or one presign of
    [put_object] for a non-empty key with a validity of 900 seconds, or one
    existence check, followed when it succeeds, and only then, by one
    presign of [get_object] for the same key with a validity of 3600
    seconds.  Every call names the configured bucket, and the key of a
    download is a non-empty string. *)
Theorem store_calls (env : Env) (event : pydict) (log : list s3_call) :
  exists calls,
    snd (lambda_handler env event log) = log ++ calls /\
    (calls = [] \/
     (exists key content_type,
        truthy key = true /\
        calls = [GeneratePresignedUrl (py "put_object")
                   [(py "Bucket", BUCKET_NAME env); (py "Key", key);
                    (py "ContentType", content_type)] 900]) \/
     (exists k,
        k <> [] /\
        ((calls = [HeadObject (BUCKET_NAME env) (VStr k)] /\
          exists e, head_object env (BUCKET_NAME env) (VStr k) = Raise e) \/
         (calls = [HeadObject (BUCKET_NAME env) (VStr k);
                   GeneratePresignedUrl (py "get_object")
                     [(py "Bucket", BUCKET_NAME env); (py "Key", VStr k)]
                     3600] /\
          exists r, head_object env (BUCKET_NAME env) (VStr k) = Return r)))).
Proof.
  destruct (lambda_handler_run env event log) as (o & calls & Hr & H).
  exists calls. rewrite H. split; [reflexivity|].
  destruct Hr; auto.
  - right; left. exists key, content_type. auto.
  - right; left. exists key, content_type. auto.
  - right; right. exists k. split; [assumption|]. left. eauto.
  - right; right. exists k. split; [assumption|]. right. eauto.
  - right; right. exists k. split; [assumption|]. right. eauto.
Qed.

Ltac run_cases H :=
  destruct H;
  unfold presign_failure;
  repeat match goal with
         | |- context [is_client_error ?e] => destruct (is_client_error e)
         | |- context [not_found_error ?e] =>
             destruct (not_found_error e) eqn:?
         | |- context [py_print ?env ?t] => destruct (py_print env t)
         end;
  cbn [statusCode error_response upload_ok download_redirect];
  intros; try discriminate.

(** X9.  A 400 is decided before the store is reached: when the handler answers
    400 it has made no call. *)
Theorem bad_request_makes_no_call (env : Env) (event : pydict)
    (log log' : list s3_call) (resp : Response) :
  lambda_handler env event log = (Return resp, log') ->
  statusCode resp = 400 ->
  log' = log.
Proof.
  destruct (lambda_handler_run env event log) as (o & calls & Hr & H).
  rewrite H. intros [= <- <-]. revert Hr.
  intros Hr. run_cases Hr; apply app_nil_r.
Qed.

Lemma bad_request_makes_no_call_witness :
  snd (lambda_handler Sample.env_ok (Sample.post_event (py "not json"))
         [HeadObject Sample.bucket (VStr (py "earlier"))]) =
    [HeadObject Sample.bucket (VStr (py "earlier"))].
Proof.
  refine (bad_request_makes_no_call Sample.env_ok
            (Sample.post_event (py "not json"))
            [HeadObject Sample.bucket (VStr (py "earlier"))] _
            (error_response 400 (py "Invalid JSON in request body")) _ _).
  - vm_compute. reflexivity.
  - reflexivity.
Defined.

(** X10.  A 200 always carries a URL that the store has signed: when the handler
    answers 200 it has made one call, the presign of [put_object] for a
    non-empty key, that call has returned, and the body holds the key and
    the URL of that call. *)
Theorem ok_comes_from_the_store (env : Env) (event : pydict)
    (log log' : list s3_call) (resp : Response) :
  lambda_handler env event log = (Return resp, log') ->
  statusCode resp = 200 ->
  exists key content_type url,
    truthy key = true /\
    generate_presigned_url env (py "put_object")
      [(py "Bucket", BUCKET_NAME env); (py "Key", key);
       (py "ContentType", content_type)] 900 = Return url /\
    log' = log ++ [GeneratePresignedUrl (py "put_object")
                     [(py "Bucket", BUCKET_NAME env); (py "Key", key);
                      (py "ContentType", content_type)] 900] /\
    resp = mkResponse 200 json_headers
             (json_dumps (VDict [(py "objectKey", key);
                                 (py "uploadUrl", VStr url);
                                 (py "method", VStr (py "PUT"));
                                 (py "contentType", content_type);
                                 (py "expiresIn", VInt 900)])).
Proof.
  destruct (lambda_handler_run env event log) as (o & calls & Hr & H).
  rewrite H. intros [= <- <-]. revert Hr.
  intros Hr. run_cases Hr.
  exists key, content_type, url. auto.
Qed.

Lemma ok_comes_from_the_store_witness :
  exists key content_type url,
    truthy key = true /\
    generate_presigned_url Sample.env_ok (py "put_object")
      [(py "Bucket", Sample.bucket); (py "Key", key);
       (py "ContentType", content_type)] 900 = Return url /\
    [GeneratePresignedUrl (py "put_object")
       (put_params Sample.bucket (VStr (py "report.pdf"))
          (VStr (py "application/pdf"))) 900] =
    [] ++ [GeneratePresignedUrl (py "put_object")
             [(py "Bucket", Sample.bucket); (py "Key", key);
              (py "ContentType", content_type)] 900] /\
    upload_ok (VStr (py "report.pdf")) Sample.signed_url
      (VStr (py "application/pdf")) =
    mkResponse 200 json_headers
      (json_dumps (VDict [(py "objectKey", key);
                          (py "uploadUrl", VStr url);
                          (py "method", VStr (py "PUT"));
                          (py "contentType", content_type);
                          (py "expiresIn", VInt 900)])).
Proof.
  refine (ok_comes_from_the_store Sample.env_ok
            (Sample.post_event Sample.report_body) [] _ _ _ _).
  - vm_compute. reflexivity.
  - reflexivity.
Defined.

(** X11.  A 307 always redirects to a URL that the store has signed for an
    object it has found: when the handler answers 307 it has made the
    existence check and the presign of [get_object] for one non-empty key,
    both have returned, and [Location] is the URL of the presign call. *)
Theorem redirect_comes_from_the_store (env : Env) (event : pydict)
    (log log' : list s3_call) (resp : Response) :
  lambda_handler env event log = (Return resp, log') ->
  statusCode resp = 307 ->
  exists k r url,
    k <> [] /\
    head_object env (BUCKET_NAME env) (VStr k) = Return r /\
    generate_presigned_url env (py "get_object")
      [(py "Bucket", BUCKET_NAME env); (py "Key", VStr k)] 3600
      = Return url /\
    log' = log ++ [HeadObject (BUCKET_NAME env) (VStr k);
                   GeneratePresignedUrl (py "get_object")
                     [(py "Bucket", BUCKET_NAME env); (py "Key", VStr k)]
                     3600] /\
    header (headers resp) (py "Location") = Some url.
Proof.
  destruct (lambda_handler_run env event log) as (o & calls & Hr & H).
  rewrite H. intros [= <- <-]. revert Hr.
  intros Hr. run_cases Hr.
  exists k, r, url. repeat split; auto.
Qed.

Lemma redirect_comes_from_the_store_witness :
  exists k r url,
    k <> [] /\
    head_object Sample.env_ok Sample.bucket (VStr k) = Return r /\
    generate_presigned_url Sample.env_ok (py "get_object")
      [(py "Bucket", Sample.bucket); (py "Key", VStr k)] 3600 = Return url /\
    [HeadObject Sample.bucket (VStr (py "a b.txt"));
     GeneratePresignedUrl (py "get_object")
       (get_params Sample.bucket (VStr (py "a b.txt"))) 3600] =
    [] ++ [HeadObject Sample.bucket (VStr k);
           GeneratePresignedUrl (py "get_object")
             [(py "Bucket", Sample.bucket); (py "Key", VStr k)] 3600] /\
    header (headers (download_redirect Sample.signed_url)) (py "Location")
      = Some url.
Proof.
  refine (redirect_comes_from_the_store Sample.env_ok
            (Sample.get_event (py "a%20b.txt")) [] _ _ _ _).
  - vm_compute. reflexivity.
  - reflexivity.
Defined.

(** X12.  A 404 has one of two origins: no operation matches the method and the
    path, and no call was made; or the one call made is the existence
    check, and it reported not-found. *)
Theorem not_found_origins (env : Env) (event : pydict)
    (log log' : list s3_call) (resp : Response) :
  lambda_handler env event log = (Return resp, log') ->
  statusCode resp = 404 ->
  (resp = error_response 404 (py "Not found") /\ log' = log) \/
  (exists k e,
     k <> [] /\
     head_object env (BUCKET_NAME env) (VStr k) = Raise e /\
     not_found_error e = true /\
     resp = error_response 404 (py "File not found") /\
     log' = log ++ [HeadObject (BUCKET_NAME env) (VStr k)]).
Proof.
  destruct (lambda_handler_run env event log) as (o & calls & Hr & H).
  rewrite H. intros [= <- <-]. revert Hr.
  intros Hr. run_cases Hr.
  - left. split; [reflexivity|apply app_nil_r].
  - right. exists k, e. auto.
Qed.

Lemma not_found_origins_witness :
  (error_response 404 (py "File not found")
     = error_response 404 (py "Not found") /\
   [HeadObject Sample.bucket (VStr (py "missing.txt"))] = []) \/
  (exists k e,
     k <> [] /\
     head_object Sample.env_missing Sample.bucket (VStr k) = Raise e /\
     not_found_error e = true /\
     error_response 404 (py "File not found")
       = error_response 404 (py "File not found") /\
     [HeadObject Sample.bucket (VStr (py "missing.txt"))]
       = [] ++ [HeadObject Sample.bucket (VStr k)]).
Proof.
  refine (not_found_origins Sample.env_missing
            (Sample.get_event (py "missing.txt")) [] _ _ _ _).
  - vm_compute. reflexivity.
  - reflexivity.
Defined.

(** ** Upload and download of one name *)

(** X13.  Upload preparation signs the [filename] as it is written, download
    decodes its path parameter first.  For a name without a percent sign
    the two address the same object: the presign of [put_object] and the
    existence check carry the same key. *)
Theorem upload_and_download_agree_on_key (env : Env) (up down : pydict)
    (log1 log2 : list s3_call) (s : pystr) (d : pydict) (f : pystr) :
  dict_get up (py "body") = Some (VStr s) ->
  json_decode env s = Return (VDict d) ->
  dict_get d (py "filename") = Some (VStr f) ->
  object_key_is down f ->
  f <> [] ->
  contains 37 f = false ->
  exists content_type rest,
    snd (handle_upload_preparation env up log1) =
      log1 ++ [GeneratePresignedUrl (py "put_object")
                 [(py "Bucket", BUCKET_NAME env); (py "Key", VStr f);
                  (py "ContentType", content_type)] 900] /\
    snd (handle_download env down log2) =
      log2 ++ HeadObject (BUCKET_NAME env) (VStr f) :: rest.
Proof.
  intros Hb Hd Hf Hk Hne Hp.
  assert (Hu : unquote f = f) by (unfold unquote; now rewrite Hp).
  exists (dict_get_default d (py "contentType")
            (VStr (py "application/octet-stream"))).
  rewrite (upload_after_parse env up log1 s (VDict d) Hb Hd).
  rewrite (download_after_key env down log2 f Hk Hne). rewrite Hu.
  unfold py_get. rewrite (dict_get_default_some _ _ _ _ Hf).
  destruct f as [|c f]; [contradiction|]. cbn [truthy negb]. cbv zeta.
  set (key := VStr (c :: f)).
  destruct (head_object env (BUCKET_NAME env) key) as [r|e].
  - exists [GeneratePresignedUrl (py "get_object")
              (get_params (BUCKET_NAME env) key) 3600].
    split.
    + unfold put_params.
      destruct (generate_presigned_url env (py "put_object") _ 900)
        as [url|[]]; reflexivity.
    + destruct (generate_presigned_url env (py "get_object") _ 3600)
        as [url|[]]; cbn [snd]; now rewrite <- app_assoc.
  - exists []. split.
    + unfold put_params.
      destruct (generate_presigned_url env (py "put_object") _ 900)
        as [url|[]]; reflexivity.
    + destruct (not_found_error e); reflexivity.
Qed.

Lemma upload_and_download_agree_on_key_witness :
  exists content_type rest,
    snd (handle_upload_preparation Sample.env_ok
           (Sample.post_event Sample.report_body) []) =
      [] ++ [GeneratePresignedUrl (py "put_object")
               [(py "Bucket", Sample.bucket); (py "Key", VStr (py "report.pdf"));
                (py "ContentType", content_type)] 900] /\
    snd (handle_download Sample.env_ok (Sample.get_event (py "report.pdf")) [])
      = [] ++ HeadObject Sample.bucket (VStr (py "report.pdf")) :: rest.
Proof.
  refine (upload_and_download_agree_on_key Sample.env_ok
            (Sample.post_event Sample.report_body)
            (Sample.get_event (py "report.pdf")) [] [] Sample.report_body
            [(py "filename", VStr (py "report.pdf"));
             (py "contentType", VStr (py "application/pdf"))]
            (py "report.pdf") _ _ _ _ _ _).
  - reflexivity.
  - vm_compute. reflexivity.
  - reflexivity.
  - exists [(py "objectKey", VStr (py "report.pdf"))]. split; reflexivity.
  - discriminate.
  - reflexivity.
Defined.

(** With a percent sign the two can differ: the name [100%25.txt] is signed
    for upload under that key and looked up for download as [100%.txt]. *)
Example percent_name_differs :
  unquote (py "100%25.txt") = py "100%.txt" /\
  snd (handle_upload_preparation Sample.env_ok
         (Sample.post_event
            ([123] ++ encode_str (py "filename") ++ [58]
               ++ encode_str (py "100%25.txt") ++ [125])) []) =
    [GeneratePresignedUrl (py "put_object")
       (put_params Sample.bucket (VStr (py "100%25.txt"))
          (VStr (py "application/octet-stream"))) 900] /\
  snd (handle_download Sample.env_ok (Sample.get_event (py "100%25.txt")) []) =
    [HeadObject Sample.bucket (VStr (py "100%.txt"));
     GeneratePresignedUrl (py "get_object")
       (get_params Sample.bucket (VStr (py "100%.txt"))) 3600].
Proof. repeat split; vm_compute; reflexivity. Qed.

(** ** The body of an error response, read back *)

Lemma hexval_hexdigit (d : Z) : 0 <= d < 16 -> hexval (hexdigit d) = Some d.
Proof.
  intros H.
  assert (E : d = 0 \/ d = 1 \/ d = 2 \/ d = 3 \/ d = 4 \/ d = 5 \/ d = 6
              \/ d = 7 \/ d = 8 \/ d = 9 \/ d = 10 \/ d = 11 \/ d = 12
              \/ d = 13 \/ d = 14 \/ d = 15) by lia.
  repeat (destruct E as [->|E]; [reflexivity|]). subst. reflexivity.
Qed.

Lemma hex4_escape (n : Z) :
  0 <= n < 65536 ->
  Json.hex4 (hexdigit (n / 4096 mod 16)) (hexdigit (n / 256 mod 16))
    (hexdigit (n / 16 mod 16)) (hexdigit (n mod 16)) = Some n.
Proof.
  intros H. unfold Json.hex4.
  rewrite !hexval_hexdigit by (apply Z.mod_pos_bound; lia).
  f_equal. Z.to_euclidean_division_equations. lia.
Qed.

Lemma lor_low_bits (a x : Z) :
  Z.land a 1023 = 0 -> 0 <= x < 1024 -> Z.lor a x = a + x.
Proof.
  intros Ha Hx.
  assert (E : Z.land x 1023 = x).
  { change 1023 with (Z.ones 10). rewrite Z.land_ones by lia.
    apply Z.mod_small. exact Hx. }
  assert (L : Z.land a x = 0).
  { rewrite <- E, (Z.land_comm x), Z.land_assoc, Ha. reflexivity. }
  pose proof (Z.add_lor_land a x) as H. rewrite L in H. lia.
Qed.

Lemma surrogate_pair (n : Z) :
  0 <= n < 1048576 ->
  Z.lor 55296 (Z.land (Z.shiftr n 10) 1023) = 55296 + n / 1024 /\
  Z.lor 56320 (Z.land n 1023) = 56320 + n mod 1024.
Proof.
  intros H.
  assert (E1 : Z.land (Z.shiftr n 10) 1023 = n / 1024).
  { change 1023 with (Z.ones 10). rewrite Z.land_ones, Z.shiftr_div_pow2 by lia.
    change (2 ^ 10) with 1024. apply Z.mod_small.
    Z.to_euclidean_division_equations. lia. }
  assert (E2 : Z.land n 1023 = n mod 1024).
  { change 1023 with (Z.ones 10). now rewrite Z.land_ones by lia. }
  rewrite E1, E2. split; apply lor_low_bits; try reflexivity;
    Z.to_euclidean_division_equations; lia.
Qed.

(** [scanstring] reads the escape of one character back as that
    character. *)
Lemma scanstring_escape_char (c : Z) (tail acc : pystr) :
  scalar_value c ->
  tail <> [] ->
  Json.scanstring (escape_char c ++ tail) acc = Json.scanstring tail (c :: acc).
Proof.
  intros Hc Ht. unfold escape_char.
  destruct (c =? 92) eqn:E92; [apply Z.eqb_eq in E92; subst; reflexivity|].
  destruct (c =? 34) eqn:E34; [apply Z.eqb_eq in E34; subst; reflexivity|].
  destruct (c =? 8) eqn:E8; [apply Z.eqb_eq in E8; subst; reflexivity|].
  destruct (c =? 12) eqn:E12; [apply Z.eqb_eq in E12; subst; reflexivity|].
  destruct (c =? 10) eqn:E10; [apply Z.eqb_eq in E10; subst; reflexivity|].
  destruct (c =? 13) eqn:E13; [apply Z.eqb_eq in E13; subst; reflexivity|].
  destruct (c =? 9) eqn:E9; [apply Z.eqb_eq in E9; subst; reflexivity|].
  destruct tail as [|t tail]; [contradiction|].
  destruct ((32 <=? c) && (c <=? 126)) eqn:Ep.
  - cbn [app Json.scanstring]. rewrite E34, E92.
    replace (c <=? 31) with false by lia. reflexivity.
  - destruct (c <? 65536) eqn:E16.
    + unfold escape_u.
      cbn [app Json.scanstring Z.eqb Pos.eqb].
      rewrite hex4_escape by (unfold scalar_value in Hc; lia).
      replace ((55296 <=? c) && (c <=? 56319)) with false
        by (unfold scalar_value in Hc; lia).
      reflexivity.
    + destruct (surrogate_pair (c - 65536)) as [Hhi Hlo];
        [unfold scalar_value in Hc; lia|].
      rewrite Hhi, Hlo.
      assert (Hq : 0 <= (c - 65536) / 1024 < 1024)
        by (unfold scalar_value in Hc; Z.to_euclidean_division_equations; lia).
      assert (Hr : 0 <= (c - 65536) mod 1024 < 1024)
        by (apply Z.mod_pos_bound; lia).
      set (hi := 55296 + (c - 65536) / 1024) in *.
      set (lo := 56320 + (c - 65536) mod 1024) in *.
      unfold escape_u.
      cbn [app Json.scanstring Z.eqb Pos.eqb].
      rewrite (hex4_escape hi) by (subst hi; lia).
      replace ((55296 <=? hi) && (hi <=? 56319)) with true by (subst hi; lia).
      unfold Json.low_surrogate. cbn [Z.eqb Pos.eqb andb].
      rewrite (hex4_escape lo) by (subst lo; lia).
      replace ((56320 <=? lo) && (lo <=? 57343)) with true by (subst lo; lia).
      replace (65536 + (hi - 55296) * 1024 + (lo - 56320)) with c
        by (subst hi lo; Z.to_euclidean_division_equations; lia).
      reflexivity.
Qed.

Lemma scanstring_escaped (s tail acc : pystr) :
  Forall scalar_value s ->
  Json.scanstring (flat_map escape_char s ++ 34 :: tail) acc =
    Json.POk (rev acc ++ s) tail.
Proof.
  intros H. revert acc. induction H as [|c s Hc Hs IH]; intros acc.
  - cbn [flat_map app Json.scanstring Z.eqb Pos.eqb].
    now rewrite app_nil_r.
  - cbn [flat_map]. rewrite <- app_assoc.
    rewrite scanstring_escape_char; [|exact Hc|].
    + rewrite IH. cbn [rev]. now rewrite <- app_assoc.
    + destruct (flat_map escape_char s); discriminate.
Qed.

(** X14.  The body of an error response is JSON text: [json.loads] reads it back
    as the object with the one member [error], whose value is the message,
    for every message made of Unicode scalar values. *)
Theorem error_body_reads_back (status : Z) (msg : pystr) :
  Forall scalar_value msg ->
  Json.decode (body (error_response status msg)) =
    Return (VDict [(py "error", VStr msg)]).
Proof.
  intros Hm.
  change (body (error_response status msg))
    with (123 :: 34 :: 101 :: 114 :: 114 :: 111 :: 114 :: 34 :: 58 :: 32
            :: 34 :: (flat_map escape_char msg ++ [34]) ++ [125]).
  rewrite <- app_assoc. cbn [app].
  unfold Json.decode, Json.decode_within.
  change Json.recursion_limit with (S 999). generalize 999%nat. intros depth.
  cbn [startswith Z.eqb Pos.eqb andb Json.skip_ws Json.is_ws orb].
  match goal with
  | |- context [Json.scan_once (S (2 * List.length ?t))] =>
      assert (HF : exists f, (2 * List.length t)%nat = S (S f))
        by (exists (2 * List.length t - 2)%nat; cbn [List.length]; lia)
  end.
  destruct HF as [f HF]. rewrite HF. clear HF.
  cbn [Json.scan_once Json.object_members Json.scanstring rev app
       Z.eqb Pos.eqb Z.leb Z.compare Pos.compare Pos.compare_cont
       Json.skip_ws Json.is_ws orb].
  rewrite (scanstring_escaped msg [125] [] Hm).
  reflexivity.
Qed.

(** A message with a quotation mark, a letter outside ASCII and a character
    outside the basic plane. *)
Lemma error_body_reads_back_witness :
  Json.decode (body (error_response 500 [34; 233; 128512])) =
    Return (VDict [(py "error", VStr [34; 233; 128512])]).
Proof.
  apply (error_body_reads_back 500 [34; 233; 128512]).
  repeat constructor; unfold scalar_value; lia.
Defined.

(** ** ASCII bodies *)

Lemma ascii_app (a b : pystr) : ascii_text a -> ascii_text b -> ascii_text (a ++ b).
Proof. intros Ha Hb. apply Forall_app. now split. Qed.

Ltac ascii_lit :=
  unfold ascii_text; cbn; repeat (apply Forall_cons; [lia|]); apply Forall_nil.

Lemma uint_codes_ascii (d : Decimal.uint) : ascii_text (uint_codes d).
Proof.
  induction d; cbn [uint_codes]; try (constructor; [lia|assumption]).
  constructor.
Qed.

Lemma str_of_Z_ascii (z : Z) : ascii_text (str_of_Z z).
Proof.
  destruct z; cbn [str_of_Z].
  - ascii_lit.
  - apply uint_codes_ascii.
  - constructor; [lia|apply uint_codes_ascii].
Qed.

Lemma drop_zeros_ascii (r : pystr) : ascii_text r -> ascii_text (drop_zeros r).
Proof.
  induction 1 as [|c r Hc Hr IH]; [constructor|].
  unfold drop_zeros; fold drop_zeros.
  destruct c as [|p|p]; try (constructor; assumption).
  repeat (destruct p as [p|p|]; try (constructor; assumption)); assumption.
Qed.

Lemma ascii_rev (s : pystr) : ascii_text s -> ascii_text (rev s).
Proof. apply Forall_rev. Qed.

Lemma ascii_cons (c : Z) (s : pystr) :
  0 <= c <= 127 -> ascii_text s -> ascii_text (c :: s).
Proof. intros. now constructor. Qed.

Lemma zeros_ascii (n : Z) : ascii_text (zeros n).
Proof.
  unfold zeros, ascii_text. apply Forall_forall. intros x Hx.
  apply repeat_spec in Hx. lia.
Qed.

Lemma ascii_split (n : nat) (s : pystr) :
  ascii_text s -> ascii_text (firstn n s) /\ ascii_text (skipn n s).
Proof.
  intros H. rewrite <- (firstn_skipn n s) in H. now apply Forall_app in H.
Qed.

Lemma format_repr_ascii (ds : pystr) (k : Z) :
  ascii_text ds -> ascii_text (format_repr ds k).
Proof.
  intros H. unfold format_repr.
  destruct ((k <=? -4) || (16 <? k)).
  - apply ascii_app.
    + destruct ds as [|d0 [|d1 rest]]; [constructor|assumption|].
      inversion H; subst. apply ascii_cons; [assumption|].
      apply ascii_cons; [lia|assumption].
    + apply ascii_app; [ascii_lit|]. apply ascii_app.
      * destruct (k - 1 <? 0); ascii_lit.
      * destruct (Z.abs (k - 1) <? 10);
          [apply ascii_cons; [lia|]|]; apply str_of_Z_ascii.
  - destruct (k <=? 0).
    + apply ascii_app; [ascii_lit|]. apply ascii_app; [apply zeros_ascii|assumption].
    + destruct (Z.of_nat (List.length ds) <=? k).
      * apply ascii_app; [assumption|].
        apply ascii_app; [apply zeros_ascii|ascii_lit].
      * destruct (ascii_split (Z.to_nat k) ds H) as [H1 H2].
        apply ascii_app; [exact H1|]. apply ascii_app; [ascii_lit|exact H2].
Qed.

Lemma float_repr_ascii (f : spec_float) : ascii_text (float_repr f).
Proof.
  destruct f as [s|s| |s m e]; cbn [float_repr].
  - destruct s; ascii_lit.
  - destruct s; ascii_lit.
  - ascii_lit.
  - unfold shortest_digits.
    destruct (shortest_from 17 m e _ _ _ 1) as [c n].
    apply ascii_app; [destruct s; ascii_lit|].
    apply format_repr_ascii, ascii_rev, drop_zeros_ascii, ascii_rev,
      str_of_Z_ascii.
Qed.

Lemma floatstr_ascii (f : spec_float) : ascii_text (floatstr f).
Proof.
  unfold floatstr.
  destruct f as [s|[|]| |s m e]; try apply float_repr_ascii; ascii_lit.
Qed.

Lemma hexdigit_ascii (n : Z) : 0 <= n < 16 -> 0 <= hexdigit n <= 127.
Proof. intros H. unfold hexdigit. destruct (n <? 10); lia. Qed.

Lemma escape_u_ascii (n : Z) : ascii_text (escape_u n).
Proof.
  unfold escape_u, ascii_text.
  repeat constructor; try lia;
    apply hexdigit_ascii; apply Z.mod_pos_bound; lia.
Qed.

(** With [ensure_ascii], the escape of any character is ASCII text. *)
Lemma escape_char_ascii (c : Z) : ascii_text (escape_char c).
Proof.
  unfold escape_char.
  repeat match goal with
         | |- ascii_text (if ?x =? ?y then _ else _) =>
             destruct (x =? y); [ascii_lit|]
         end.
  destruct ((32 <=? c) && (c <=? 126)) eqn:E.
  - apply ascii_cons; [lia|constructor].
  - destruct (c <? 65536); [apply escape_u_ascii|].
    apply ascii_app; apply escape_u_ascii.
Qed.

Lemma encode_str_ascii (s : pystr) : ascii_text (encode_str s).
Proof.
  unfold encode_str. apply ascii_app; [ascii_lit|].
  apply ascii_app; [|ascii_lit].
  induction s as [|c s IH]; cbn [flat_map]; [constructor|].
  apply ascii_app; [apply escape_char_ascii|exact IH].
Qed.

(** [json.dumps] gives ASCII text for every value. *)
Lemma json_dumps_ascii (v : value) : ascii_text (json_dumps v).
Proof.
  induction v using value_induction.
  - ascii_lit.
  - destruct b; ascii_lit.
  - apply str_of_Z_ascii.
  - apply floatstr_ascii.
  - apply encode_str_ascii.
  - cbn [json_dumps]. apply ascii_app; [ascii_lit|].
    apply ascii_app; [|ascii_lit].
    induction H as [|x l Hx Hl IH]; [constructor|].
    destruct l as [|y l']; [exact Hx|].
    apply ascii_app; [exact Hx|]. apply ascii_app; [ascii_lit|exact IH].
  - cbn [json_dumps]. apply ascii_app; [ascii_lit|].
    apply ascii_app; [|ascii_lit].
    induction H as [|[k x] d Hx Hd IH]; [constructor|].
    cbn [snd] in Hx. destruct d as [|y d'].
    + apply ascii_app; [apply encode_str_ascii|].
      apply ascii_app; [ascii_lit|exact Hx].
    + apply ascii_app; [apply encode_str_ascii|].
      apply ascii_app; [ascii_lit|]. apply ascii_app; [exact Hx|].
      apply ascii_app; [ascii_lit|exact IH].
Qed.

(** X15.  Every body that the handler returns is ASCII text, whatever the event
    and whatever the store and the decoder give: each body is written by
    [json.dumps] with its default [ensure_ascii]. *)
Theorem response_bodies_are_ascii (env : Env) (event : pydict)
    (log : list s3_call) :
  exists resp log',
    lambda_handler env event log = (Return resp, log') /\
    Forall (fun c => 0 <= c <= 127) (body resp).
Proof.
  destruct (lambda_handler_run env event log) as (o & calls & Hr & H).
  eexists _, _. split; [exact H|].
  destruct Hr;
    unfold presign_failure;
    repeat match goal with
           | |- context [is_client_error ?e] => destruct (is_client_error e)
           | |- context [not_found_error ?e] => destruct (not_found_error e)
           | |- context [py_print ?env ?t] => destruct (py_print env t)
           end;
    apply json_dumps_ascii.
Qed.

(** ** The body of a 200, read back *)

(** A string value, as [json.dumps] writes it, read by [scan_once]. *)
Lemma scan_once_escaped (f depth : nat) (s tail : pystr) :
  Forall scalar_value s ->
  Json.scan_once (S f) depth (34 :: flat_map escape_char s ++ 34 :: tail) =
    Json.POk (VStr s) tail.
Proof.
  intros Hs. cbn [Json.scan_once Z.eqb Pos.eqb].
  rewrite (scanstring_escaped s tail [] Hs). reflexivity.
Qed.

(** A member with a string value, as [json.dumps] writes it before another
    member, read by the loop of [parse_object]. *)
Lemma object_member_escaped (f depth : nat) (key s rest : pystr)
    (acc : pydict) :
  Forall scalar_value key ->
  Forall scalar_value s ->
  Json.skip_ws rest = rest ->
  Json.object_members (S (S f)) depth
    (34 :: flat_map escape_char key ++ 34 :: 58 :: 32 :: 34
        :: flat_map escape_char s ++ 34 :: 44 :: 32 :: rest) acc =
  Json.object_members (S f) depth rest (dict_set acc key (VStr s)).
Proof.
  intros Hk Hs Hr. cbn [Json.object_members Z.eqb Pos.eqb].
  rewrite (scanstring_escaped key _ [] Hk).
  cbn [rev app Json.skip_ws Json.is_ws Z.eqb Pos.eqb orb].
  rewrite (scan_once_escaped f depth s _ Hs).
  cbn [Json.skip_ws Json.is_ws Z.eqb Pos.eqb orb]. rewrite Hr. reflexivity.
Qed.

(** The last member of the body, [expiresIn] with the number 900, and the
    end of the object. *)
Lemma object_member_expires (f depth : nat) (acc : pydict) :
  Json.object_members (S (S f)) depth
    (34 :: flat_map escape_char (py "expiresIn") ++ 34 :: 58 :: 32
        :: 57 :: 48 :: 48 :: [125]) acc =
  Json.POk (VDict (dict_set acc (py "expiresIn") (VInt 900))) [].
Proof. reflexivity. Qed.

(** The text of the body of a 200, character by character. *)
Lemma upload_body_text (key url content_type : pystr) :
  upload_body (VStr key) url (VStr content_type) =
    123 :: 34 :: flat_map escape_char (py "objectKey") ++ 34 :: 58 :: 32 :: 34
        :: flat_map escape_char key ++ 34 :: 44 :: 32
        :: 34 :: flat_map escape_char (py "uploadUrl") ++ 34 :: 58 :: 32 :: 34
        :: flat_map escape_char url ++ 34 :: 44 :: 32
        :: 34 :: flat_map escape_char (py "method") ++ 34 :: 58 :: 32 :: 34
        :: flat_map escape_char (py "PUT") ++ 34 :: 44 :: 32
        :: 34 :: flat_map escape_char (py "contentType") ++ 34 :: 58 :: 32 :: 34
        :: flat_map escape_char content_type ++ 34 :: 44 :: 32
        :: 34 :: flat_map escape_char (py "expiresIn") ++ 34 :: 58 :: 32
        :: 57 :: 48 :: 48 :: [125].
Proof.
  unfold upload_body. cbn [json_dumps]. unfold encode_str.
  set (k := flat_map escape_char key).
  set (u := flat_map escape_char url).
  set (c := flat_map escape_char content_type).
  clearbody k u c.
  repeat rewrite <- app_assoc. reflexivity.
Qed.

Lemma scalar_text (s : string) :
  forallb (fun c => (c <? 55296) && (0 <=? c)) (py s) = true ->
  Forall scalar_value (py s).
Proof.
  intros H. apply Forall_forall. intros c Hc.
  rewrite forallb_forall in H. specialize (H c Hc).
  unfold scalar_value. lia.
Qed.

(** X16.  The body of a 200, for a key, a URL and a content type that are
    strings of Unicode scalar values, is JSON text that [json.loads] reads
    back as the object with the five members the handler wrote:
    [objectKey] is the filename of the request, character for character. *)
Theorem upload_body_reads_back (key url content_type : pystr) :
  Forall scalar_value key ->
  Forall scalar_value url ->
  Forall scalar_value content_type ->
  Json.decode (body (upload_ok (VStr key) url (VStr content_type))) =
    Return (VDict [(py "objectKey", VStr key);
                   (py "uploadUrl", VStr url);
                   (py "method", VStr (py "PUT"));
                   (py "contentType", VStr content_type);
                   (py "expiresIn", VInt 900)]).
Proof.
  intros Hk Hu Hc.
  cbn [body upload_ok]. rewrite upload_body_text.
  unfold Json.decode, Json.decode_within.
  change Json.recursion_limit with (S 999). generalize 999%nat. intros depth.
  cbn [startswith Z.eqb Pos.eqb andb Json.skip_ws Json.is_ws orb].
  match goal with
  | |- context [Json.scan_once (S (2 * List.length ?t))] =>
      assert (HF : exists f, (2 * List.length t)%nat
                             = S (S (S (S (S (S f))))))
  end.
  { match goal with
    | |- exists f, (2 * List.length ?t)%nat = _ =>
        exists (2 * List.length t - 6)%nat;
        assert (3 <= List.length t)%nat
          by (cbn [List.length]; rewrite length_app; cbn [List.length]; lia)
    end.
    lia. }
  destruct HF as [f HF]. rewrite HF. clear HF.
  cbn [Json.scan_once Z.eqb Pos.eqb Json.skip_ws Json.is_ws orb].
  rewrite (object_member_escaped _ _ (py "objectKey") key);
    [|apply scalar_text; reflexivity|exact Hk|reflexivity].
  rewrite (object_member_escaped _ _ (py "uploadUrl") url);
    [|apply scalar_text; reflexivity|exact Hu|reflexivity].
  rewrite (object_member_escaped _ _ (py "method") (py "PUT"));
    [|apply scalar_text; reflexivity|apply scalar_text; reflexivity
     |reflexivity].
  rewrite (object_member_escaped _ _ (py "contentType") content_type);
    [|apply scalar_text; reflexivity|exact Hc|reflexivity].
  rewrite object_member_expires. reflexivity.
Qed.

Lemma upload_body_reads_back_witness :
  Json.decode
    (body (upload_ok (VStr (py "report.pdf")) Sample.signed_url
             (VStr (py "application/pdf")))) =
    Return (VDict [(py "objectKey", VStr (py "report.pdf"));
                   (py "uploadUrl", VStr Sample.signed_url);
                   (py "method", VStr (py "PUT"));
                   (py "contentType", VStr (py "application/pdf"));
                   (py "expiresIn", VInt 900)]).
Proof.
  apply upload_body_reads_back; apply scalar_text; reflexivity.
Defined.



(** ** The log lines of the handler *)

(** X18.  Line 16 and the reads of lines 18-19 are outside the [try]: an
    exception of [json.dumps(event)], an exception of the [print] of the
    event, and the [AttributeError] of [event.get] on an event that is not
    an object leave the handler, before any call to the store. *)
Theorem entry_fault_leaves_handler (env : Env) (event : value)
    (log : list s3_call) :
  (forall e, dumps_fault env event = Some e ->
     lambda_handler_logged env event log = (Raise e, log)) /\
  (forall e, dumps_fault env event = None ->
     py_print env (py "Event: " ++ json_dumps event) = Raise e ->
     lambda_handler_logged env event log = (Raise e, log)) /\
  (entry_logged env event ->
   (forall d, event <> VDict d) ->
   lambda_handler_logged env event log =
     (Raise (AttributeError
               (py "'" ++ type_name event
                  ++ py "' object has no attribute 'get'")), log)).
Proof.
  unfold lambda_handler_logged, py_json_dumps. repeat split.
  - intros e Hd. rewrite Hd. reflexivity.
  - intros e Hd Hp. rewrite Hd. unfold bind at 1, lift at 1.
    unfold bind, lift. rewrite Hp. reflexivity.
  - intros [Hd Hp] Hv. rewrite Hd. unfold bind at 1, lift at 1.
    unfold bind, lift. rewrite Hp.
    destruct event; try reflexivity. now destruct (Hv d).
Qed.

(** An event nested beyond the recursion limit, a closed output stream, and
    an event that is a list. *)
Lemma entry_fault_leaves_handler_witness :
  lambda_handler_logged Sample.env_ok (VDict Sample.event_nested) [] =
    (Raise (Fault (py "maximum recursion depth exceeded while encoding a JSON object")),
     []) /\
  lambda_handler_logged Sample.env_closed_stream
    (VDict (Sample.get_event (py "report.pdf"))) [] =
    (Raise (Fault (py "I/O operation on closed file.")), []) /\
  lambda_handler_logged Sample.env_ok (VList []) [] =
    (Raise (AttributeError (py "'list' object has no attribute 'get'")), []).
Proof.
  split; [|split].
  - apply (proj1 (entry_fault_leaves_handler Sample.env_ok
                    (VDict Sample.event_nested) [])).
    vm_compute. reflexivity.
  - apply (proj1 (proj2 (entry_fault_leaves_handler Sample.env_closed_stream
                           (VDict (Sample.get_event (py "report.pdf"))) []))).
    + vm_compute. reflexivity.
    + reflexivity.
  - apply (proj2 (proj2 (entry_fault_leaves_handler Sample.env_ok
                           (VList []) []))).
    + split; vm_compute; reflexivity.
    + discriminate.
Defined.

(** X19.  The [print] of the [except Exception] clause (line 33) runs before
    the 500 is built: when the dispatch or an operation raises [e] and that
    [print] raises [e'], the handler raises [e'] and returns no response;
    the calls made before [e] stay made. *)
Theorem error_log_fault_leaves_handler (env : Env) (event : pydict)
    (log log' : list s3_call) (e e' : exn) :
  entry_logged env (VDict event) ->
  route env event log = (Raise e, log') ->
  py_print env (py "Error: " ++ str_exn e) = Raise e' ->
  lambda_handler_logged env (VDict event) log = (Raise e', log').
Proof.
  intros He Hr Hp.
  rewrite (lambda_handler_logged_of_route env event log He), Hr.
  unfold error_line. rewrite Hp. reflexivity.
Qed.

(** A store whose 403 carries a lone surrogate, on a UTF-8 stream. *)
Lemma error_log_fault_leaves_handler_witness :
  lambda_handler_logged Sample.env_garbled_head
    (VDict (Sample.get_event (py "report.pdf"))) [] =
    (Raise (Fault (py "'utf-8' codec can't encode character '\ud800' in position 18: surrogates not allowed")),
     [HeadObject Sample.bucket (VStr (py "report.pdf"))]).
Proof.
  apply (error_log_fault_leaves_handler Sample.env_garbled_head
           (Sample.get_event (py "report.pdf")) [] _ Sample.garbled).
  - split; vm_compute; reflexivity.
  - vm_compute. reflexivity.
  - vm_compute. reflexivity.
Defined.

(** X20.  On an event that is an object, when line 16 has written the event
    and the [print] of line 33 writes its line if the [try] body raises,
    the function of the source and [lambda_handler] give the same outcome
    and make the same calls. *)
Theorem logged_handler_agrees (env : Env) (event : pydict)
    (log : list s3_call) :
  entry_logged env (VDict event) ->
  error_logged env (fst (route env event log)) ->
  lambda_handler_logged env (VDict event) log = lambda_handler env event log.
Proof.
  intros He Hl.
  rewrite (lambda_handler_logged_of_route env event log He),
    lambda_handler_of_route.
  destruct (route env event log) as [[r|e] log']; [reflexivity|].
  cbn [fst error_logged] in Hl. rewrite Hl. reflexivity.
Qed.

(** The upload of the specification's scenario, and the 403 of a store that
    refuses the existence check. *)
Lemma logged_handler_agrees_witness :
  lambda_handler_logged Sample.env_ok
    (VDict (Sample.post_event Sample.report_body)) [] =
    lambda_handler Sample.env_ok (Sample.post_event Sample.report_body) [] /\
  lambda_handler_logged Sample.env_denied
    (VDict (Sample.get_event (py "report.pdf"))) [] =
    lambda_handler Sample.env_denied (Sample.get_event (py "report.pdf")) [].
Proof.
  split.
  - apply (logged_handler_agrees Sample.env_ok
             (Sample.post_event Sample.report_body) []).
    + split; vm_compute; reflexivity.
    + vm_compute. exact I.
  - apply (logged_handler_agrees Sample.env_denied
             (Sample.get_event (py "report.pdf")) []).
    + split; vm_compute; reflexivity.
    + vm_compute. reflexivity.
Defined.
